(** * AWS EKS MCP server: request validation, dispatch and cluster inspection

    A shallow embedding of [src/index.ts] (validators, tool dispatcher),
    [eksManager] (the control-plane facade) and [k8sClient] (credential
    bridge and workload projection), followed by the properties the
    specification states about them.

    Modelling conventions.
    - JavaScript strings are [string]; integer-valued numbers are [Z]
      (every number the code computes with is an integer below 2^53).
    - A raw tool argument is a [JsValue]; a JSON object is a finite map from
      property names to values.
    - [console.error] diagnostics are not modelled: they go to stderr and
      never influence a result.
    - [client.config.region] of an SDK client is not the region string the
      client was constructed with but the asynchronous provider function the
      SDK resolves it into ([RegionProvider]); a string is never identical
      to it.
    - The AWS SDK, the Kubernetes client, the clock and the runtime built-ins
      ([JSON.stringify], base64, [Date]) are external: they are parameters
      of the development (record [External]), universally quantified in every
      theorem.  Each external call is recorded in a call log. *)

From stdpp Require Import gmap strings list pretty.

#[local] Set Warnings "-register-all".
#[local] Open Scope Z_scope.

(** ** JavaScript values and thrown values *)

Module Js.

Inductive JsValue : Type :=
  | JsUndefined
  | JsNull
  | JsBool (b : bool)
  | JsNumber (n : Z)
  | JsString (s : string)
  | JsArray (items : list JsValue)
  | JsObject (fields : gmap string JsValue).

(** [v.k] for one of the fixed property names the validators read.  An
    absent property reads as [undefined]; so does any such name on an array. *)
Definition getProp (v : JsValue) (k : string) : JsValue :=
  match v with
  | JsObject fields => default JsUndefined (fields !! k)
  | _ => JsUndefined
  end.

(** [typeof v === 'object'] *)
Definition typeofObject (v : JsValue) : bool :=
  match v with
  | JsNull | JsArray _ | JsObject _ => true
  | _ => false
  end.

(** [typeof v === 'string'] *)
Definition typeofString (v : JsValue) : bool :=
  match v with JsString _ => true | _ => false end.

Definition isNull (v : JsValue) : bool :=
  match v with JsNull => true | _ => false end.

Definition isUndefined (v : JsValue) : bool :=
  match v with JsUndefined => true | _ => false end.

(** [Array.isArray(v) && v.every(p)] *)
Definition isArrayEvery (p : JsValue -> bool) (v : JsValue) : bool :=
  match v with
  | JsArray items => forallb p items
  | _ => false
  end.

(** [s || d] on an optional string: [undefined] and the empty string are falsy. *)
Definition orString (s : option string) (d : string) : string :=
  match s with
  | Some s' => if decide (s' = "") then d else s'
  | None => d
  end.

(** Truthiness of an optional string ([undefined] and [""] are falsy). *)
Definition truthyString (s : option string) : bool :=
  match s with
  | Some s' => bool_decide (s' ≠ "")
  | None => false
  end.

(** What [client.config.region] holds for an SDK client constructed with
    [region]: the provider function [async () => region]. *)
Inductive RegionProvider := ProviderOf (region : string).

(** [s !== p] for a string [s] and a provider function [p]: values of
    different types are never strictly equal. *)
Definition stringIsNot (s : string) (p : RegionProvider) : bool := true.

Inductive ErrorCode := InvalidParams | MethodNotFound | InternalError.

(** What a [throw] (or a rejected promise) carries. *)
Inductive Thrown :=
  | JsError (message : string)                      (* Error, TypeError, SDK exceptions *)
  | McpError (code : ErrorCode) (message : string)  (* extends Error *)
  | NonError.                                       (* anything that is not an Error *)

(** [error instanceof Error ? error.message : fallback] *)
Definition errorMessage (e : Thrown) (fallback : string) : string :=
  match e with
  | JsError m => m
  | McpError _ m => m
  | NonError => fallback
  end.

Definition isMcpError (e : Thrown) : bool :=
  match e with McpError _ _ => true | _ => false end.

(** Reading a property of [undefined]. *)
Definition TypeError_undefined (prop : string) : Thrown :=
  JsError ("Cannot read properties of undefined (reading '" +:+ prop +:+ "')").

(** [`${n}`] for an integer-valued number. *)
Definition numberToString (n : Z) : string := pretty n.

(** [xs.join(',')] *)
Fixpoint join (sep : string) (xs : list string) : string :=
  match xs with
  | [] => ""
  | [x] => x
  | x :: rest => x +:+ sep +:+ join sep rest
  end.

Inductive Result (A : Type) :=
  | Ok (a : A)
  | Throw (e : Thrown).
Arguments Ok {A} a.
Arguments Throw {A} e.

End Js.
Import Js.

(** ** Data model ([src/types.ts]) *)

(** A [Date]: its time value in milliseconds, [None] for an invalid date. *)
Definition JsDate := option Z.

(** [region] is declared a string; [listClusters] stores
    [this.eksClient.config.region as string] in it, which at run time is the
    provider function. *)
Record ClusterInfo := {
  ci_name : string;
  ci_region : RegionProvider;
  ci_status : string;
}.

Record EndpointConfigResponse := {
  privateAccess : bool;
  publicAccess : bool;
  ecr_publicAccessCidrs : list string;
}.

Record VpcConfig := {
  vc_subnetIds : list string;
  vc_securityGroupIds : list string;
  endpointConfigResponse : EndpointConfigResponse;
}.

Record LogSetup := {
  types : list string;
  enabled : bool;
}.

Record ClusterDetails := {
  cd_name : string;
  cd_arn : string;
  cd_status : string;
  cd_version : string;
  cd_endpoint : string;
  cd_createdAt : JsDate;
  cd_roleArn : string;
  cd_vpcConfig : VpcConfig;
  cd_logging : list LogSetup;   (* logging.clusterLogging *)
  cd_platformVersion : string;
  cd_tags : gmap string string;
}.

Record CreateClusterRequest := {
  clusterName : string;
  region : string;
  kubernetesVersion : string;
  roleArn : string;
  subnetIds : list string;
  securityGroupIds : option (list string);
  publicAccessCidrs : option (list string);
}.

Inductive OpStatus := SUCCESS | FAILURE.

Record OperationStatus := {
  os_status : OpStatus;
  os_message : string;
  os_clusterDetails : option ClusterDetails;
}.

Record PodInfo := {
  pi_name : string;
  pi_namespace : string;
  pi_status : string;
  pi_ready : string;
  pi_restarts : Z;
  pi_age : string;
  pi_node : string;
}.

Record ServiceInfo := {
  si_name : string;
  si_namespace : string;
  si_type : string;
  si_clusterIP : string;
  si_externalIP : string;
  si_ports : string;
  si_age : string;
}.

Record DeploymentsInfo := {
  pods : list PodInfo;
  services : list ServiceInfo;
}.

Record EKSCredentials := {
  accessKeyId : option string;
  secretAccessKey : option string;
  sessionToken : option string;
  ec_region : string;
}.

(** ** Request validators ([src/index.ts], lines 15-60) *)

Module Validator.

Definition optionalString (v : JsValue) : bool :=
  isUndefined v || typeofString v.

Definition optionalStringArray (v : JsValue) : bool :=
  isUndefined v || isArrayEvery typeofString v.

Definition isValidCreateClusterArgs (args : JsValue) : bool :=
  typeofObject args &&
  negb (isNull args) &&
  typeofString (getProp args "clusterName") &&
  typeofString (getProp args "region") &&
  typeofString (getProp args "kubernetesVersion") &&
  typeofString (getProp args "roleArn") &&
  isArrayEvery typeofString (getProp args "subnetIds") &&
  optionalStringArray (getProp args "securityGroupIds") &&
  optionalStringArray (getProp args "publicAccessCidrs").

Definition isValidClusterStatusArgs (args : JsValue) : bool :=
  typeofObject args &&
  negb (isNull args) &&
  typeofString (getProp args "clusterName") &&
  optionalString (getProp args "region").

Definition isValidDeleteClusterArgs (args : JsValue) : bool :=
  typeofObject args &&
  negb (isNull args) &&
  typeofString (getProp args "clusterName") &&
  optionalString (getProp args "region").

Definition isValidListDeploymentsArgs (args : JsValue) : bool :=
  typeofObject args &&
  negb (isNull args) &&
  typeofString (getProp args "clusterName") &&
  optionalString (getProp args "region") &&
  optionalString (getProp args "namespace").

(** *** Narrowing

    A type guard does not convert anything at run time: the handler reads
    the same properties off the same object.  The readers below give those
    properties the types the guard has established. *)

Definition stringProp (args : JsValue) (k : string) : string :=
  match getProp args k with JsString s => s | _ => "" end.

Definition optStringProp (args : JsValue) (k : string) : option string :=
  match getProp args k with JsString s => Some s | _ => None end.

Definition stringOf (v : JsValue) : string :=
  match v with JsString s => s | _ => "" end.

Definition stringsProp (args : JsValue) (k : string) : list string :=
  match getProp args k with JsArray items => stringOf <$> items | _ => [] end.

Definition optStringsProp (args : JsValue) (k : string) : option (list string) :=
  match getProp args k with JsArray items => Some (stringOf <$> items) | _ => None end.

Definition asCreateClusterRequest (args : JsValue) : CreateClusterRequest :=
  {| clusterName := stringProp args "clusterName";
     region := stringProp args "region";
     kubernetesVersion := stringProp args "kubernetesVersion";
     roleArn := stringProp args "roleArn";
     subnetIds := stringsProp args "subnetIds";
     securityGroupIds := optStringsProp args "securityGroupIds";
     publicAccessCidrs := optStringsProp args "publicAccessCidrs" |}.

End Validator.
Import Validator.

(** ** External collaborators *)

(** *** AWS SDK shapes *)

Record StaticCredentials := {
  sc_accessKeyId : option string;
  sc_secretAccessKey : option string;
  sc_sessionToken : option string;
}.

(** The configuration an [EKSClient] / [STSClient] is constructed with. *)
Record ClientConfig := {
  cfg_region : string;
  cfg_credentials : option StaticCredentials;
}.

Record VpcConfigResponse := {
  vr_subnetIds : option (list string);
  vr_securityGroupIds : option (list string);
  vr_endpointPrivateAccess : option bool;
  vr_endpointPublicAccess : option bool;
  vr_publicAccessCidrs : option (list string);
}.

Record SdkLogSetup := {
  sl_types : option (list string);
  sl_enabled : option bool;
}.

(** The SDK's [Cluster].  Fields the source dereferences with a non-null
    assertion are present; the others are optional, as the source treats
    them. *)
Record Cluster := {
  cl_name : string;
  cl_arn : string;
  cl_status : string;
  cl_version : string;
  cl_endpoint : string;
  cl_createdAt : JsDate;
  cl_roleArn : string;
  cl_resourcesVpcConfig : option VpcConfigResponse;
  cl_clusterLogging : option (list SdkLogSetup);   (* logging?.clusterLogging *)
  cl_platformVersion : string;
  cl_tags : option (gmap string string);
}.

Record VpcConfigRequest := {
  rq_subnetIds : list string;
  rq_securityGroupIds : option (list string);
  rq_endpointPrivateAccess : bool;
  rq_endpointPublicAccess : bool;
  rq_publicAccessCidrs : list string;
}.

Record CreateClusterInput := {
  in_name : string;
  in_version : string;
  in_roleArn : string;
  in_resourcesVpcConfig : VpcConfigRequest;
  in_clusterLogging : list LogSetup;   (* logging.clusterLogging *)
}.

Inductive EKSCommand :=
  | ListClustersCommand
  | DescribeClusterCommand (name : string)
  | CreateClusterCommand (input : CreateClusterInput)
  | DeleteClusterCommand (name : string).

Record CallerIdentity := {
  id_account : option string;
  id_arn : option string;
  id_userId : option string;
}.

(** *** Kubernetes client shapes *)

Record V1ObjectMeta := {
  om_name : option string;
  om_namespace : option string;
  om_creationTimestamp : option JsDate;
}.

Record V1ContainerStatus := {
  cs_ready : bool;
  cs_restartCount : Z;
}.

Record V1PodStatus := {
  ps_phase : option string;
  ps_containerStatuses : option (list V1ContainerStatus);
}.

Record V1Pod := {
  pod_metadata : option V1ObjectMeta;
  pod_status : option V1PodStatus;
  pod_nodeName : option (option string);   (* spec?.nodeName *)
}.

Record V1LoadBalancerIngress := {
  lb_ip : option string;
  lb_hostname : option string;
}.

Record V1ServicePort := {
  sp_port : Z;
  sp_nodePort : option Z;
  sp_protocol : option string;
}.

Record V1ServiceSpec := {
  ss_type : option string;
  ss_clusterIP : option string;
  ss_externalIPs : option (list string);
  ss_ports : option (list V1ServicePort);
}.

Record V1Service := {
  svc_metadata : option V1ObjectMeta;
  svc_spec : option V1ServiceSpec;
  (* status?.loadBalancer?.ingress: [None] when any link of the chain is absent *)
  svc_ingress : option (list V1LoadBalancerIngress);
}.

Record KubeCluster := {
  kc_name : string;
  kc_server : string;
  kc_certificateAuthorityData : option string;
  kc_skipTLSVerify : bool;
}.

Record KubeUser := {
  ku_name : string;
  ku_token : string;
}.

Record KubeContext := {
  kx_name : string;
  kx_cluster : string;
  kx_user : string;
}.

Record KubeConfig := {
  clusters : list KubeCluster;
  users : list KubeUser;
  contexts : list KubeContext;
  currentContext : option string;
}.

(** [new k8s.KubeConfig()] *)
Definition emptyKubeConfig : KubeConfig :=
  {| clusters := []; users := []; contexts := []; currentContext := None |}.

(** *** What [JSON.stringify] is applied to *)

Inductive Serializable :=
  | SClusters (cs : list ClusterInfo)
  | SDetails (d : ClusterDetails)
  | SStatus (o : OperationStatus)
  | SDeployments (d : DeploymentsInfo)
  | STokenInfo (cluster region : string) (timestamp : Z).

(** *** The call log *)

Inductive Call :=
  | EksSend (cfg : ClientConfig) (cmd : EKSCommand)
  | StsGetCallerIdentity (cfg : ClientConfig)
  | ClockRead
  | K8sListPods (kc : KubeConfig)
  | K8sListServices (kc : KubeConfig).

(** *** The environment

    [W] is the state of the outside world; each operation may change it and
    either fulfils ([Ok]) or rejects ([Throw]). *)
Record External (W : Type) := {
  eks_listClusters : ClientConfig -> W -> Result (option (list string)) * W;
  eks_describeCluster : ClientConfig -> string -> W -> Result (option Cluster) * W;
  eks_createCluster : ClientConfig -> CreateClusterInput -> W -> Result (option Cluster) * W;
  eks_deleteCluster : ClientConfig -> string -> W -> Result unit * W;
  sts_getCallerIdentity : ClientConfig -> W -> Result CallerIdentity * W;
  k8s_listPodForAllNamespaces : KubeConfig -> W -> Result (list V1Pod) * W;
  k8s_listServiceForAllNamespaces : KubeConfig -> W -> Result (list V1Service) * W;
  (* Date.now() and new Date().getTime() *)
  clock : W -> Z * W;
  (* date.toString() *)
  Date_toString : JsDate -> string;
  (* new Date(s).getTime(); None is NaN *)
  Date_parse : string -> option Z;
  JSON_stringify : Serializable -> string;
  (* Buffer.from(s).toString('base64') *)
  base64 : string -> string;
}.
Arguments eks_listClusters {W} _ _ _.
Arguments eks_describeCluster {W} _ _ _ _.
Arguments eks_createCluster {W} _ _ _ _.
Arguments eks_deleteCluster {W} _ _ _ _.
Arguments sts_getCallerIdentity {W} _ _ _.
Arguments k8s_listPodForAllNamespaces {W} _ _ _.
Arguments k8s_listServiceForAllNamespaces {W} _ _ _.
Arguments clock {W} _ _.
Arguments Date_toString {W} _ _.
Arguments Date_parse {W} _ _.
Arguments JSON_stringify {W} _ _.
Arguments base64 {W} _ _.

(** ** Program state and the effect monad *)

(** Everything the server object holds, the heap of [KubeConfig] objects
    allocated so far, the outside world, and the log of external calls. *)
Record Sys (W : Type) := {
  eksClient : ClientConfig;
  stsClient : ClientConfig;
  kubeconfigs : list KubeConfig;
  world : W;
  calls : list Call;
}.
Arguments eksClient {W} _.
Arguments stsClient {W} _.
Arguments kubeconfigs {W} _.
Arguments world {W} _.
Arguments calls {W} _.

Definition set_eksClient {W} (c : ClientConfig) (s : Sys W) : Sys W :=
  {| eksClient := c; stsClient := stsClient s; kubeconfigs := kubeconfigs s;
     world := world s; calls := calls s |}.

Definition set_kubeconfigs {W} (k : list KubeConfig) (s : Sys W) : Sys W :=
  {| eksClient := eksClient s; stsClient := stsClient s; kubeconfigs := k;
     world := world s; calls := calls s |}.

Definition record_call {W} (c : Call) (w : W) (s : Sys W) : Sys W :=
  {| eksClient := eksClient s; stsClient := stsClient s; kubeconfigs := kubeconfigs s;
     world := w; calls := calls s ++ [c] |}.

Definition M (W A : Type) : Type := Sys W -> Result A * Sys W.

Definition ret {W A} (a : A) : M W A := fun s => (Ok a, s).

Definition throw {W A} (e : Thrown) : M W A := fun s => (Throw e, s).

Definition bind {W A B} (m : M W A) (k : A -> M W B) : M W B :=
  fun s =>
    match m s with
    | (Ok a, s') => k a s'
    | (Throw e, s') => (Throw e, s')
    end.

(** [try { body } catch (error) { handler }] *)
Definition try_catch {W A} (body : M W A) (handler : Thrown -> M W A) : M W A :=
  fun s =>
    match body s with
    | (Ok a, s') => (Ok a, s')
    | (Throw e, s') => handler e s'
    end.

(** Lift a pure computation that may throw. *)
Definition liftResult {W A} (r : Result A) : M W A := fun s => (r, s).

Notation "x <- m ;; k" := (bind m (fun x => k))
  (at level 100, m at next level, right associativity).

(** [xs.map(f)] for an effectful [f], left to right; the first throw aborts. *)
Fixpoint mapM {W A B} (f : A -> M W B) (xs : list A) : M W (list B) :=
  match xs with
  | [] => ret []
  | x :: rest =>
      y <- f x ;;
      ys <- mapM f rest ;;
      ret (y :: ys)
  end.

(** An external call: consult the world, log the call. *)
Definition external {W A} (c : Call) (oracle : W -> Result A * W) : M W A :=
  fun s =>
    let '(r, w) := oracle (world s) in
    (r, record_call c w s).

(** ** The control-plane facade ([eksManager], part_001) *)

Section EKSManager.
Context {W : Type} (E : External W).

(** [new EKSClient({ region })]: a configuration with a region and nothing else. *)
Definition newRegionClient (region : string) : ClientConfig :=
  {| cfg_region := region; cfg_credentials := None |}.

(** Lines 22-36.  [AWS_REGION] is [process.env.AWS_REGION]. *)
Definition constructorConfig (credentials : option EKSCredentials)
    (AWS_REGION : option string) : ClientConfig :=
  match credentials with
  | Some c =>
      {| cfg_region := ec_region c;
         cfg_credentials :=
           Some {| sc_accessKeyId := accessKeyId c;
                   sc_secretAccessKey := secretAccessKey c;
                   sc_sessionToken := sessionToken c |} |}
  | None =>
      {| cfg_region := orString AWS_REGION "us-east-1"; cfg_credentials := None |}
  end.

(** The state right after [new EKSManager(credentials)]: both clients share
    the one configuration. *)
Definition newEKSManager (credentials : option EKSCredentials)
    (AWS_REGION : option string) (w : W) : Sys W :=
  let config := constructorConfig credentials AWS_REGION in
  {| eksClient := config; stsClient := config; kubeconfigs := []; world := w; calls := [] |}.

(** [this.eksClient.send(command)], one definition per command so that the
    response keeps its type. *)
Definition sendListClusters : M W (option (list string)) :=
  fun s => external (EksSend (eksClient s) ListClustersCommand)
             (eks_listClusters E (eksClient s)) s.

Definition sendDescribeCluster (name : string) : M W (option Cluster) :=
  fun s => external (EksSend (eksClient s) (DescribeClusterCommand name))
             (eks_describeCluster E (eksClient s) name) s.

Definition sendCreateCluster (input : CreateClusterInput) : M W (option Cluster) :=
  fun s => external (EksSend (eksClient s) (CreateClusterCommand input))
             (eks_createCluster E (eksClient s) input) s.

Definition sendDeleteCluster (name : string) : M W unit :=
  fun s => external (EksSend (eksClient s) (DeleteClusterCommand name))
             (eks_deleteCluster E (eksClient s) name) s.

(** [this.eksClient.config.region]: the provider function of the current
    client. *)
Definition configuredRegion : M W RegionProvider :=
  fun s => (Ok (ProviderOf (cfg_region (eksClient s))), s).

(** [this.eksClient = new EKSClient({ region })] *)
Definition replaceEksClient (region : string) : M W unit :=
  fun s => (Ok tt, set_eksClient (newRegionClient region) s).

(** Lines 89-91 and 165-167:
    [if (region && region !== this.eksClient.config.region)
       this.eksClient = new EKSClient({ region })]. *)
Definition updateRegionIfProvided (region : option string) : M W unit :=
  current <- configuredRegion ;;
  match region with
  | Some r =>
      if truthyString region && stringIsNot r current
      then replaceEksClient r
      else ret tt
  | None => ret tt
  end.

(** Lines 114-116: the same without the truthiness test,
    [if (request.region !== this.eksClient.config.region) ...]. *)
Definition updateRegionIfDifferent (region : string) : M W unit :=
  current <- configuredRegion ;;
  if stringIsNot region current then replaceEksClient region else ret tt.

(** Lines 201-228. *)
Definition mapClusterToDetails (cluster : Cluster) : ClusterDetails :=
  let vpc := cl_resourcesVpcConfig cluster in
  {| cd_name := cl_name cluster;
     cd_arn := cl_arn cluster;
     cd_status := cl_status cluster;
     cd_version := cl_version cluster;
     cd_endpoint := cl_endpoint cluster;
     cd_createdAt := cl_createdAt cluster;
     cd_roleArn := cl_roleArn cluster;
     cd_vpcConfig :=
       {| vc_subnetIds := default [] (vpc ≫= vr_subnetIds);
          vc_securityGroupIds := default [] (vpc ≫= vr_securityGroupIds);
          endpointConfigResponse :=
            {| privateAccess := default false (vpc ≫= vr_endpointPrivateAccess);
               publicAccess := default false (vpc ≫= vr_endpointPublicAccess);
               ecr_publicAccessCidrs := default [] (vpc ≫= vr_publicAccessCidrs) |} |};
     cd_logging :=
       default []
         ((fun logs : list SdkLogSetup =>
             (fun log : SdkLogSetup => {| types := default [] (sl_types log);
                            enabled := default false (sl_enabled log) |}) <$> logs)
            <$> cl_clusterLogging cluster);
     cd_platformVersion := cl_platformVersion cluster;
     cd_tags := default ∅ (cl_tags cluster) |}.

(** Lines 52-73: the per-cluster callback of [listClusters]. *)
Definition describeForList (clusterName : string) : M W ClusterInfo :=
  try_catch
    (detailResponse <- sendDescribeCluster clusterName ;;
     match detailResponse with
     | Some cluster =>
         r <- configuredRegion ;;
         ret {| ci_name := cl_name cluster; ci_region := r; ci_status := cl_status cluster |}
     | None => throw (TypeError_undefined "name")
     end)
    (fun error =>
       r <- configuredRegion ;;
       ret {| ci_name := clusterName; ci_region := r; ci_status := "UNKNOWN" |}).

(** Lines 41-81.  [Promise.all] over the mapped callbacks yields their
    results in the order of the names; the requests are issued in that
    order. *)
Definition listClusters : M W (list ClusterInfo) :=
  try_catch
    (response <- sendListClusters ;;
     match response with
     | None => ret []
     | Some names => mapM describeForList names
     end)
    (fun error =>
       throw (JsError ("Failed to list EKS clusters: " +:+ errorMessage error "Unknown error"))).

(** Lines 86-106. *)
Definition getClusterStatus (clusterName : string) (region : option string)
    : M W ClusterDetails :=
  try_catch
    (_ <- updateRegionIfProvided region ;;
     response <- sendDescribeCluster clusterName ;;
     match response with
     | None => throw (JsError ("Cluster " +:+ clusterName +:+ " not found"))
     | Some cluster => ret (mapClusterToDetails cluster)
     end)
    (fun error =>
       throw (JsError ("Failed to get cluster status: " +:+ errorMessage error "Unknown error"))).

(** Lines 118-137: the command [createCluster] builds. *)
Definition createClusterInput (request : CreateClusterRequest) : CreateClusterInput :=
  {| in_name := clusterName request;
     in_version := kubernetesVersion request;
     in_roleArn := roleArn request;
     in_resourcesVpcConfig :=
       {| rq_subnetIds := subnetIds request;
          rq_securityGroupIds := securityGroupIds request;
          rq_endpointPrivateAccess := true;
          rq_endpointPublicAccess := true;
          rq_publicAccessCidrs := default ["0.0.0.0/0"] (publicAccessCidrs request) |};
     in_clusterLogging :=
       [ {| types := ["api"; "audit"; "authenticator"; "controllerManager"; "scheduler"];
            enabled := true |} ] |}.

(** Lines 111-157. *)
Definition createCluster (request : CreateClusterRequest) : M W OperationStatus :=
  try_catch
    (_ <- updateRegionIfDifferent (region request) ;;
     response <- sendCreateCluster (createClusterInput request) ;;
     match response with
     | None => throw (JsError "Failed to create cluster - no cluster data returned")
     | Some cluster =>
         ret {| os_status := SUCCESS;
                os_message :=
                  "Cluster " +:+ clusterName request +:+ " creation initiated successfully";
                os_clusterDetails := Some (mapClusterToDetails cluster) |}
     end)
    (fun error =>
       ret {| os_status := FAILURE;
              os_message := "Failed to create cluster: " +:+ errorMessage error "Unknown error";
              os_clusterDetails := None |}).

(** Lines 162-183. *)
Definition deleteCluster (clusterName : string) (region : option string)
    : M W OperationStatus :=
  try_catch
    (_ <- updateRegionIfProvided region ;;
     _ <- sendDeleteCluster clusterName ;;
     ret {| os_status := SUCCESS;
            os_message := "Cluster " +:+ clusterName +:+ " deletion initiated successfully";
            os_clusterDetails := None |})
    (fun error =>
       ret {| os_status := FAILURE;
              os_message := "Failed to delete cluster: " +:+ errorMessage error "Unknown error";
              os_clusterDetails := None |}).

(** Lines 188-196. *)
Definition getCallerIdentity : M W CallerIdentity :=
  try_catch
    (fun s => external (StsGetCallerIdentity (stsClient s))
                (sts_getCallerIdentity E (stsClient s)) s)
    (fun error =>
       throw (JsError ("Failed to get caller identity: " +:+ errorMessage error "Unknown error"))).

End EKSManager.

(** ** Credential bridge and cluster inspector ([k8sClient], part_000) *)

Section K8sClient.
Context {W : Type} (E : External W).

(** [new Date()] / [Date.now()]: read the clock. *)
Definition now : M W Z :=
  external ClockRead (fun w => let '(t, w') := clock E w in (Ok t, w')).

(** [new k8s.KubeConfig()]: allocate an empty configuration, return its reference. *)
Definition newKubeConfig : M W nat :=
  fun s => (Ok (length (kubeconfigs s)),
            set_kubeconfigs (kubeconfigs s ++ [emptyKubeConfig]) s).

(** [kc.loadFromOptions(options)]: overwrite the configuration in place. *)
Definition loadFromOptions (kc : nat) (options : KubeConfig) : M W unit :=
  fun s => (Ok tt, set_kubeconfigs (<[kc := options]> (kubeconfigs s)) s).

(** [kc.makeApiClient(k8s.CoreV1Api)]: the client talks to whatever the
    configuration holds. *)
Definition makeApiClient (kc : nat) : M W KubeConfig :=
  fun s => (Ok (default emptyKubeConfig (kubeconfigs s !! kc)), s).

Definition listPodForAllNamespaces (api : KubeConfig) : M W (list V1Pod) :=
  external (K8sListPods api) (k8s_listPodForAllNamespaces E api).

Definition listServiceForAllNamespaces (api : KubeConfig) : M W (list V1Service) :=
  external (K8sListServices api) (k8s_listServiceForAllNamespaces E api).

(** Lines 150-168. *)
Definition generateEKSToken (clusterName region : string) : M W string :=
  let tokenPrefix := "k8s-aws-v1." in
  timestamp <- now ;;
  let clusterInfo := base64 E (JSON_stringify E (STokenInfo clusterName region timestamp)) in
  ret (tokenPrefix +:+ clusterInfo).

(** Lines 105-144.  [clusterDetails] is what [getClusterStatus] returned: it
    has no [certificateAuthority] property, so that read is [undefined]. *)
Definition configureEKSAuth (kc : nat) (clusterDetails : ClusterDetails) (region : string)
    : M W unit :=
  try_catch
    (identity <- getCallerIdentity E ;;
     token <- generateEKSToken (cd_name clusterDetails) region ;;
     let cluster :=
       {| kc_name := cd_name clusterDetails;
          kc_server := cd_endpoint clusterDetails;
          kc_certificateAuthorityData := None;
          kc_skipTLSVerify := false |} in
     let user :=
       {| ku_name := cd_name clusterDetails +:+ "-user"; ku_token := token |} in
     let context :=
       {| kx_name := cd_name clusterDetails;
          kx_cluster := cd_name clusterDetails;
          kx_user := ku_name user |} in
     loadFromOptions kc
       {| clusters := [cluster]; users := [user]; contexts := [context];
          currentContext := Some (kx_name context) |})
    (fun error =>
       throw (JsError ("Failed to configure EKS authentication: "
                       +:+ errorMessage error "Unknown error"))).

(** Lines 173-182. *)
Definition getPodReadyStatus (pod : V1Pod) : string :=
  match pod_status pod ≫= ps_containerStatuses with
  | None => "0/0"
  | Some statuses =>
      let ready := Z.of_nat (length (List.filter cs_ready statuses)) in
      let total := Z.of_nat (length statuses) in
      numberToString ready +:+ "/" +:+ numberToString total
  end.

(** Lines 187-196. *)
Definition getPodRestartCount (pod : V1Pod) : Z :=
  match pod_status pod ≫= ps_containerStatuses with
  | None => 0
  | Some statuses => fold_left (fun total status => total + cs_restartCount status) statuses 0
  end.

(** Lines 201-212.  [ingress[0]] of an empty array is [undefined], and
    reading [.ip] off it throws. *)
Definition getExternalIP (service : V1Service) : Result string :=
  match svc_ingress service with
  | Some ingresses =>
      match ingresses with
      | ingress :: _ =>
          Ok (orString (lb_ip ingress) (orString (lb_hostname ingress) "<pending>"))
      | [] => Throw (TypeError_undefined "ip")
      end
  | None =>
      match svc_spec service ≫= ss_externalIPs with
      | Some ips =>
          if bool_decide (0 < length ips)%nat then Ok (join "," ips) else Ok "<none>"
      | None => Ok "<none>"
      end
  end.

Definition renderPort (port : V1ServicePort) : string :=
  let protocol := orString (sp_protocol port) "TCP" in
  match sp_nodePort port with
  | Some nodePort =>
      if bool_decide (nodePort ≠ 0)
      then numberToString (sp_port port) +:+ ":" +:+ numberToString nodePort +:+ "/" +:+ protocol
      else numberToString (sp_port port) +:+ "/" +:+ protocol
  | None => numberToString (sp_port port) +:+ "/" +:+ protocol
  end.

(** Lines 217-231. *)
Definition getServicePorts (service : V1Service) : string :=
  match svc_spec service ≫= ss_ports with
  | None => "<none>"
  | Some [] => "<none>"
  | Some ports => join "," (renderPort <$> ports)
  end.

Definition msPerMinute : Z := 1000 * 60.
Definition msPerHour : Z := 1000 * 60 * 60.
Definition msPerDay : Z := 1000 * 60 * 60 * 24.

(** Lines 245-255 once both times are known.  [Math.floor(a / b)] is [a `div` b],
    [a % b] is [a `rem` b]. *)
Definition renderAge (diffMs : Z) : string :=
  let days := diffMs `div` msPerDay in
  let hours := (diffMs `rem` msPerDay) `div` msPerHour in
  let minutes := (diffMs `rem` msPerHour) `div` msPerMinute in
  if bool_decide (0 < days) then numberToString days +:+ "d"
  else if bool_decide (0 < hours) then numberToString hours +:+ "h"
  else numberToString minutes +:+ "m".

(** Lines 236-256.  An unparsable timestamp makes every number [NaN]: both
    comparisons fail and the minutes render as ["NaNm"]. *)
Definition calculateAge (creationTimestamp : option string) : M W string :=
  match creationTimestamp with
  | None => ret "unknown"
  | Some timestamp =>
      if decide (timestamp = "") then ret "unknown"
      else
        let created := Date_parse E timestamp in
        current <- now ;;
        match created with
        | Some t => ret (renderAge (current - t))
        | None => ret "NaNm"
        end
  end.

(** [obj.metadata?.creationTimestamp?.toString()] *)
Definition creationTimestampString (metadata : option V1ObjectMeta) : option string :=
  Date_toString E <$> (metadata ≫= om_creationTimestamp).

(** Lines 74-82. *)
Definition podInfo (pod : V1Pod) : M W PodInfo :=
  age <- calculateAge (creationTimestampString (pod_metadata pod)) ;;
  ret {| pi_name := orString (pod_metadata pod ≫= om_name) "unknown";
         pi_namespace := orString (pod_metadata pod ≫= om_namespace) "default";
         pi_status := orString (pod_status pod ≫= ps_phase) "Unknown";
         pi_ready := getPodReadyStatus pod;
         pi_restarts := getPodRestartCount pod;
         pi_age := age;
         pi_node := orString (pod_nodeName pod ≫= id) "unknown" |}.

(** Lines 84-92: [externalIP] is evaluated, and may throw, before the age
    reads the clock. *)
Definition serviceInfo (service : V1Service) : M W ServiceInfo :=
  externalIP <- liftResult (getExternalIP service) ;;
  age <- calculateAge (creationTimestampString (svc_metadata service)) ;;
  ret {| si_name := orString (svc_metadata service ≫= om_name) "unknown";
         si_namespace := orString (svc_metadata service ≫= om_namespace) "default";
         si_type := orString (svc_spec service ≫= ss_type) "ClusterIP";
         si_clusterIP := orString (svc_spec service ≫= ss_clusterIP) "None";
         si_externalIP := externalIP;
         si_ports := getServicePorts service;
         si_age := age |}.

(** Line 34. *)
Definition targetNamespace (namespace : option string) : option string :=
  if bool_decide (namespace = Some "all") || negb (truthyString namespace)
  then None
  else namespace.

(** Lines 65-71. *)
Definition filterByNamespace {A} (metadata : A -> option V1ObjectMeta)
    (target : option string) (items : list A) : list A :=
  match target with
  | Some ns => List.filter (fun item => bool_decide (metadata item ≫= om_namespace = Some ns)) items
  | None => items
  end.

(** Lines 22-62: everything that is fetched before the namespace is looked at. *)
Definition fetchClusterObjects (clusterName : string) (region : option string)
    : M W (list V1Pod * list V1Service) :=
  clusterDetails <- getClusterStatus E clusterName region ;;
  kc <- newKubeConfig ;;
  _ <- configureEKSAuth kc clusterDetails (orString region "us-east-1") ;;
  coreV1Api <- makeApiClient kc ;;
  podItems <- listPodForAllNamespaces coreV1Api ;;
  serviceItems <- listServiceForAllNamespaces coreV1Api ;;
  ret (podItems, serviceItems).

(** Lines 64-94: local filtering and projection. *)
Definition projectDeployments (target : option string)
    (items : list V1Pod * list V1Service) : M W DeploymentsInfo :=
  let filteredPods := filterByNamespace pod_metadata target (fst items) in
  let filteredServices := filterByNamespace svc_metadata target (snd items) in
  podInfos <- mapM podInfo filteredPods ;;
  serviceInfos <- mapM serviceInfo filteredServices ;;
  ret {| pods := podInfos; services := serviceInfos |}.

(** Lines 15-100. *)
Definition listClusterDeployments (clusterName : string) (region namespace : option string)
    : M W DeploymentsInfo :=
  try_catch
    (items <- fetchClusterObjects clusterName region ;;
     projectDeployments (targetNamespace namespace) items)
    (fun error =>
       throw (JsError ("Failed to list cluster deployments: "
                       +:+ errorMessage error "Unknown error"))).

End K8sClient.

(** ** The tool dispatcher ([src/index.ts], lines 210-373) *)

Section Server.
Context {W : Type} (E : External W).

Record TextContent := {
  tc_type : string;
  tc_text : string;
}.

(** The response envelope; [isError] is absent ([None]) on success. *)
Record ToolResult := {
  content : list TextContent;
  isError : option bool;
}.

Definition textResult (text : string) : ToolResult :=
  {| content := [ {| tc_type := "text"; tc_text := text |} ]; isError := None |}.

(** Lines 276-293. *)
Definition handleListClusters : M W ToolResult :=
  try_catch
    (clusters <- listClusters E ;;
     ret (textResult (JSON_stringify E (SClusters clusters))))
    (fun error =>
       throw (McpError InternalError
                ("Failed to list clusters: " +:+ errorMessage error "Unknown error"))).

(** Lines 295-312. *)
Definition handleGetClusterStatus (args : JsValue) : M W ToolResult :=
  try_catch
    (clusterDetails <- getClusterStatus E (stringProp args "clusterName")
                         (optStringProp args "region") ;;
     ret (textResult (JSON_stringify E (SDetails clusterDetails))))
    (fun error =>
       throw (McpError InternalError
                ("Failed to get cluster status: " +:+ errorMessage error "Unknown error"))).

(** Lines 314-331. *)
Definition handleCreateCluster (args : CreateClusterRequest) : M W ToolResult :=
  try_catch
    (result <- createCluster E args ;;
     ret (textResult (JSON_stringify E (SStatus result))))
    (fun error =>
       throw (McpError InternalError
                ("Failed to create cluster: " +:+ errorMessage error "Unknown error"))).

(** Lines 333-350. *)
Definition handleDeleteCluster (args : JsValue) : M W ToolResult :=
  try_catch
    (result <- deleteCluster E (stringProp args "clusterName") (optStringProp args "region") ;;
     ret (textResult (JSON_stringify E (SStatus result))))
    (fun error =>
       throw (McpError InternalError
                ("Failed to delete cluster: " +:+ errorMessage error "Unknown error"))).

(** Lines 352-373. *)
Definition handleListDeployments (args : JsValue) : M W ToolResult :=
  try_catch
    (deployments <- listClusterDeployments E (stringProp args "clusterName")
                      (optStringProp args "region") (optStringProp args "namespace") ;;
     ret (textResult (JSON_stringify E (SDeployments deployments))))
    (fun error =>
       throw (McpError InternalError
                ("Failed to list deployments: " +:+ errorMessage error "Unknown error"))).

(** Lines 210-273: the [CallToolRequestSchema] handler.  A [Throw] of an
    [McpError] is the protocol-level error the caller receives. *)
Definition callTool (name : string) (args : JsValue) : M W ToolResult :=
  try_catch
    (if decide (name = "list_eks_clusters") then handleListClusters
     else if decide (name = "get_eks_cluster_status") then
       if negb (isValidClusterStatusArgs args)
       then throw (McpError InvalidParams "Invalid arguments for get_eks_cluster_status")
       else handleGetClusterStatus args
     else if decide (name = "create_eks_cluster") then
       if negb (isValidCreateClusterArgs args)
       then throw (McpError InvalidParams "Invalid arguments for create_eks_cluster")
       else handleCreateCluster (asCreateClusterRequest args)
     else if decide (name = "delete_eks_cluster") then
       if negb (isValidDeleteClusterArgs args)
       then throw (McpError InvalidParams "Invalid arguments for delete_eks_cluster")
       else handleDeleteCluster args
     else if decide (name = "list_cluster_deployments") then
       if negb (isValidListDeploymentsArgs args)
       then throw (McpError InvalidParams "Invalid arguments for list_cluster_deployments")
       else handleListDeployments args
     else throw (McpError MethodNotFound ("Unknown tool: " +:+ name)))
    (fun error =>
       if isMcpError error then throw error
       else
         ret {| content :=
                  [ {| tc_type := "text";
                       tc_text := "Error: " +:+ errorMessage error "Unknown error occurred" |} ];
                isError := Some true |}).

End Server.

(** ** The tool catalogue ([src/index.ts], lines 96-207) *)

(** A property of an input schema: [{ type: 'string' }] or
    [{ type: 'array', items: { type: 'string' } }], with its description. *)
Inductive PropertySchema :=
  | StringProperty (description : string)
  | StringArrayProperty (description : string).

(** An [inputSchema]; its [type] is ['object'] for every tool. *)
Record InputSchema := {
  properties : list (string * PropertySchema);
  required : list string;
}.

Record ToolDescriptor := {
  td_name : string;
  td_description : string;
  inputSchema : InputSchema;
}.

(** The double-quote character, which one description contains. *)
Definition doubleQuote : string := String (Ascii.ascii_of_nat 34) EmptyString.

(** What the [ListToolsRequestSchema] handler returns. *)
Definition listTools : list ToolDescriptor :=
  [ {| td_name := "list_eks_clusters";
       td_description := "Retrieve a list of all accessible EKS clusters";
       inputSchema := {| properties := []; required := [] |} |};
    {| td_name := "get_eks_cluster_status";
       td_description := "Get detailed status information for a specific EKS cluster";
       inputSchema :=
         {| properties :=
              [ ("clusterName", StringProperty "Name of the EKS cluster");
                ("region",
                 StringProperty "AWS region (optional, uses default if not specified)") ];
            required := ["clusterName"] |} |};
    {| td_name := "create_eks_cluster";
       td_description := "Create a new AWS EKS cluster";
       inputSchema :=
         {| properties :=
              [ ("clusterName", StringProperty "Name for the new EKS cluster");
                ("region", StringProperty "AWS region where the cluster will be created");
                ("kubernetesVersion",
                 StringProperty ("Kubernetes version (e.g., " +:+ doubleQuote +:+ "1.28"
                                 +:+ doubleQuote +:+ ")"));
                ("roleArn", StringProperty "ARN of the IAM role for the EKS cluster");
                ("subnetIds", StringArrayProperty "Array of subnet IDs for the cluster");
                ("securityGroupIds",
                 StringArrayProperty "Array of security group IDs (optional)");
                ("publicAccessCidrs",
                 StringArrayProperty "Array of CIDR blocks for public access (optional)") ];
            required :=
              ["clusterName"; "region"; "kubernetesVersion"; "roleArn"; "subnetIds"] |} |};
    {| td_name := "delete_eks_cluster";
       td_description := "Delete an AWS EKS cluster";
       inputSchema :=
         {| properties :=
              [ ("clusterName", StringProperty "Name of the EKS cluster to delete");
                ("region",
                 StringProperty "AWS region (optional, uses default if not specified)") ];
            required := ["clusterName"] |} |};
    {| td_name := "list_cluster_deployments";
       td_description := "List Kubernetes pods and services in an EKS cluster";
       inputSchema :=
         {| properties :=
              [ ("clusterName", StringProperty "Name of the EKS cluster");
                ("region",
                 StringProperty "AWS region (optional, uses default if not specified)");
                ("namespace",
                 StringProperty
                   "Kubernetes namespace (optional, defaults to all namespaces)") ];
            required := ["clusterName"] |} |} ].

(** ** Test doubles

    Concrete environments on which the model runs: a cloud that answers
    (except for the cluster named [beta], whose description is refused), a
    cloud on which every request is refused, and one where only the identity
    service refuses.  The world is the clock, in milliseconds; every read
    advances it by one. *)

Module TestDouble.

Definition accessDenied : Thrown := JsError "AccessDenied".

Definition sampleCluster (name : string) : Cluster :=
  {| cl_name := name;
     cl_arn := "arn:aws:eks:us-east-1:000000000000:cluster/" +:+ name;
     cl_status := "ACTIVE";
     cl_version := "1.28";
     cl_endpoint := "https://" +:+ name +:+ ".eks.amazonaws.com";
     cl_createdAt := Some 1700000000000;
     cl_roleArn := "arn:aws:iam::000000000000:role/eks";
     cl_resourcesVpcConfig := None;
     cl_clusterLogging := None;
     cl_platformVersion := "eks.1";
     cl_tags := None |}.

Definition meta (name ns : string) (created : Z) : option V1ObjectMeta :=
  Some {| om_name := Some name; om_namespace := Some ns;
          om_creationTimestamp := Some (Some created) |}.

Definition samplePods : list V1Pod :=
  [ {| pod_metadata := meta "web-1" "default" 1700000000000;
       pod_status := Some {| ps_phase := Some "Running";
                             ps_containerStatuses :=
                               Some [ {| cs_ready := true; cs_restartCount := 0 |};
                                      {| cs_ready := false; cs_restartCount := 2 |} ] |};
       pod_nodeName := Some (Some "node-a") |};
    {| pod_metadata := meta "dns-1" "kube-system" 1700000000000;
       pod_status := None;
       pod_nodeName := None |} ].

Definition sampleServices : list V1Service :=
  [ {| svc_metadata := meta "web" "default" 1700000000000;
       svc_spec := Some {| ss_type := Some "LoadBalancer"; ss_clusterIP := Some "10.0.0.7";
                           ss_externalIPs := None;
                           ss_ports := Some [ {| sp_port := 80; sp_nodePort := Some 30080;
                                                 sp_protocol := None |} ] |};
       svc_ingress := Some [ {| lb_ip := None; lb_hostname := Some "lb.example.com" |} ] |};
    {| svc_metadata := meta "dns" "kube-system" 1700000000000;
       svc_spec := None;
       svc_ingress := None |} ].

(** A service whose load-balancer status carries an empty ingress list. *)
Definition emptyIngressService : V1Service :=
  {| svc_metadata := meta "web" "default" 1700000000000;
     svc_spec := Some {| ss_type := Some "LoadBalancer"; ss_clusterIP := Some "10.0.0.7";
                         ss_externalIPs := None; ss_ports := None |};
     svc_ingress := Some [] |}.

(** Dates are printed as their time value in decimal and parsed back. *)
Fixpoint parseDigits (acc : Z) (s : string) : option Z :=
  match s with
  | EmptyString => Some acc
  | String c rest =>
      let d := Z.of_N (Ascii.N_of_ascii c) - 48 in
      if bool_decide (0 ≤ d ≤ 9) then parseDigits (acc * 10 + d) rest else None
  end.

Definition testDateToString (d : JsDate) : string :=
  match d with Some t => pretty t | None => "Invalid Date" end.

Definition healthy : External Z :=
  {| eks_listClusters := fun _ w => (Ok (Some ["alpha"; "beta"; "gamma"]), w);
     eks_describeCluster := fun _ name w =>
       if decide (name = "beta") then (Throw accessDenied, w)
       else (Ok (Some (sampleCluster name)), w);
     eks_createCluster := fun _ input w => (Ok (Some (sampleCluster (in_name input))), w);
     eks_deleteCluster := fun _ _ w => (Ok tt, w);
     sts_getCallerIdentity := fun _ w =>
       (Ok {| id_account := Some "000000000000"; id_arn := None; id_userId := None |}, w);
     k8s_listPodForAllNamespaces := fun _ w => (Ok samplePods, w);
     k8s_listServiceForAllNamespaces := fun _ w => (Ok sampleServices, w);
     clock := fun w => (w, w + 1);
     Date_toString := testDateToString;
     Date_parse := parseDigits 0;
     JSON_stringify := fun _ => "{}";
     base64 := fun s => s |}.

Definition unreachable : External Z :=
  {| eks_listClusters := fun _ w => (Throw accessDenied, w);
     eks_describeCluster := fun _ _ w => (Throw accessDenied, w);
     eks_createCluster := fun _ _ w => (Throw accessDenied, w);
     eks_deleteCluster := fun _ _ w => (Throw accessDenied, w);
     sts_getCallerIdentity := fun _ w => (Throw accessDenied, w);
     k8s_listPodForAllNamespaces := fun _ w => (Throw accessDenied, w);
     k8s_listServiceForAllNamespaces := fun _ w => (Throw accessDenied, w);
     clock := fun w => (w, w + 1);
     Date_toString := testDateToString;
     Date_parse := parseDigits 0;
     JSON_stringify := fun _ => "{}";
     base64 := fun s => s |}.

(** The control plane and the cluster answer, the identity service refuses. *)
Definition identityRefused : External Z :=
  {| eks_listClusters := eks_listClusters healthy;
     eks_describeCluster := eks_describeCluster healthy;
     eks_createCluster := eks_createCluster healthy;
     eks_deleteCluster := eks_deleteCluster healthy;
     sts_getCallerIdentity := fun _ w => (Throw accessDenied, w);
     k8s_listPodForAllNamespaces := k8s_listPodForAllNamespaces healthy;
     k8s_listServiceForAllNamespaces := k8s_listServiceForAllNamespaces healthy;
     clock := clock healthy;
     Date_toString := testDateToString;
     Date_parse := parseDigits 0;
     JSON_stringify := fun _ => "{}";
     base64 := fun s => s |}.

(** The cluster reports one service whose ingress list is empty. *)
Definition brokenIngress : External Z :=
  {| eks_listClusters := eks_listClusters healthy;
     eks_describeCluster := eks_describeCluster healthy;
     eks_createCluster := eks_createCluster healthy;
     eks_deleteCluster := eks_deleteCluster healthy;
     sts_getCallerIdentity := sts_getCallerIdentity healthy;
     k8s_listPodForAllNamespaces := k8s_listPodForAllNamespaces healthy;
     k8s_listServiceForAllNamespaces := fun _ w =>
       (Ok (sampleServices ++ [emptyIngressService]), w);
     clock := clock healthy;
     Date_toString := testDateToString;
     Date_parse := parseDigits 0;
     JSON_stringify := fun _ => "{}";
     base64 := fun s => s |}.

Definition staticCredentials : EKSCredentials :=
  {| accessKeyId := Some "AKIAEXAMPLE"; secretAccessKey := Some "secret";
     sessionToken := None; ec_region := "us-east-1" |}.

(** A server started at time 1700000600000 (ten minutes after the sample
    objects were created), with and without static credentials. *)
Definition started : Sys Z := newEKSManager None None 1700000600000.
Definition startedWithCredentials : Sys Z :=
  newEKSManager (Some staticCredentials) None 1700000600000.

Definition object (fields : list (string * JsValue)) : JsValue :=
  JsObject (list_to_map fields).

Definition createArgs (subnets : list JsValue) : JsValue :=
  object [ ("clusterName", JsString "demo"); ("region", JsString "us-east-1");
           ("kubernetesVersion", JsString "1.28");
           ("roleArn", JsString "arn:aws:iam::000000000000:role/eks");
           ("subnetIds", JsArray subnets) ].

Definition createArgsMissingSubnetIds : JsValue :=
  object [ ("clusterName", JsString "demo"); ("region", JsString "us-east-1");
           ("kubernetesVersion", JsString "1.28");
           ("roleArn", JsString "arn:aws:iam::000000000000:role/eks") ].

Definition sampleRequest (cidrs : option (list string)) : CreateClusterRequest :=
  {| clusterName := "demo"; region := "eu-west-1"; kubernetesVersion := "1.28";
     roleArn := "arn:aws:iam::000000000000:role/eks";
     subnetIds := ["subnet-1"; "subnet-2"]; securityGroupIds := None;
     publicAccessCidrs := cidrs |}.

End TestDouble.

Import TestDouble.

(** ** Shapes of raw arguments

    The shapes of argument objects, stated independently of the validators
    and compared with them below. *)

Definition IsString (v : JsValue) : Prop := ∃ s, v = JsString s.

Definition IsStringArray (v : JsValue) : Prop :=
  ∃ items, v = JsArray items ∧ Forall IsString items.

(** The required part of a [create_eks_cluster] argument object, with
    [subnetIds] of any length. *)
Definition CreateArgsRequired (args : JsValue) : Prop :=
  IsString (getProp args "clusterName") ∧
  IsString (getProp args "region") ∧
  IsString (getProp args "kubernetesVersion") ∧
  IsString (getProp args "roleArn") ∧
  IsStringArray (getProp args "subnetIds").

(** The shape of a [get_eks_cluster_status] / [delete_eks_cluster] argument
    object: [clusterName] a string of any length, [region] absent or a string. *)
Definition ClusterArgsShape (args : JsValue) : Prop :=
  IsString (getProp args "clusterName") ∧
  (getProp args "region" = JsUndefined ∨ IsString (getProp args "region")).

(** ** Conformance to an input schema

    The reading of an input schema that the statements below use: the
    arguments are an object, every required property is present, and every
    declared property that is present has the declared type.  A property
    that reads as [undefined] counts as absent. *)

Definition hasType (p : PropertySchema) (v : JsValue) : bool :=
  match p with
  | StringProperty _ => typeofString v
  | StringArrayProperty _ => isArrayEvery typeofString v
  end.

Definition isPlainObject (v : JsValue) : bool :=
  match v with JsObject _ => true | _ => false end.

Definition conformsTo (schema : InputSchema) (args : JsValue) : bool :=
  isPlainObject args &&
  forallb (fun k => negb (isUndefined (getProp args k))) (required schema) &&
  forallb (fun kp : string * PropertySchema =>
             isUndefined (getProp args kp.1) || hasType kp.2 (getProp args kp.1))
          (properties schema).

(** The sum of a list of counters. *)
Definition sumZ (xs : list Z) : Z := foldr Z.add 0 xs.

(** What a caller of the dispatcher can observe: a result without an error
    flag, or a protocol error. *)
Definition ProtocolOutcome (r : Result ToolResult) : Prop :=
  match r with
  | Ok result => ∃ text, result = textResult text
  | Throw e => ∃ code message, e = McpError code message
  end.

(** ** Vocabulary for the statements *)

Section Vocabulary.
Context {W : Type} (E : External W).

(** What the control plane answers to the detail requests for [names],
    asked in that order from world [w] with client configuration [cfg]. *)
Fixpoint detailOutcomes (cfg : ClientConfig) (names : list string) (w : W)
    : list (Result (option Cluster)) :=
  match names with
  | [] => []
  | name :: rest =>
      let '(outcome, w') := eks_describeCluster E cfg name w in
      outcome :: detailOutcomes cfg rest w'
  end.

(** The entry a failed detail request degrades to. *)
Definition unknownEntry (name : string) (region : RegionProvider) : ClusterInfo :=
  {| ci_name := name; ci_region := region; ci_status := "UNKNOWN" |}.

(** The list entry a detail outcome is turned into. *)
Definition summarize (region : RegionProvider) (name : string)
    (outcome : Result (option Cluster)) : ClusterInfo :=
  match outcome with
  | Ok (Some cluster) =>
      {| ci_name := cl_name cluster; ci_region := region; ci_status := cl_status cluster |}
  | Ok None | Throw _ => unknownEntry name region
  end.

(** A call that names no region. *)
Inductive RegionlessCall :=
  | CallListClusters
  | CallGetClusterStatus (clusterName : string)
  | CallDeleteCluster (clusterName : string)
  | CallListDeployments (clusterName : string) (namespace : option string).

(** Run a computation for its effects; whether it returned or threw, the
    server goes on to the next request. *)
Definition attempt {A} (m : M W A) : M W unit :=
  fun s => (Ok tt, (m s).2).

Definition runRegionless (c : RegionlessCall) : M W unit :=
  match c with
  | CallListClusters => attempt (listClusters E)
  | CallGetClusterStatus name => attempt (getClusterStatus E name None)
  | CallDeleteCluster name => attempt (deleteCluster E name None)
  | CallListDeployments name namespace =>
      attempt (listClusterDeployments E name None namespace)
  end.

Fixpoint runAll (cs : list RegionlessCall) : M W unit :=
  match cs with
  | [] => ret tt
  | c :: rest => _ <- runRegionless c ;; runAll rest
  end.

(** Every control-plane request among [cs] was sent through a client
    configured as [cfg]. *)
Definition sentThrough (cfg : ClientConfig) (cs : list Call) : Prop :=
  Forall (fun c => match c with EksSend cfg' _ => cfg' = cfg | _ => True end) cs.

(** A computation that leaves the control-plane client alone and sends
    every control-plane request through it. *)
Definition KeepsClient {A} (m : M W A) : Prop :=
  ∀ s, eksClient (m s).2 = eksClient s ∧
       ∃ new, calls (m s).2 = calls s ++ new ∧ sentThrough (eksClient s) new.

(** A computation every run of which relates the state before to the state
    after by [R]. *)
Definition Steps (R : Sys W → Sys W → Prop) {A} (m : M W A) : Prop :=
  ∀ s, R s (m s).2.

(** The state components no operation of an inspection or control-plane
    call other than session building touches. *)
Definition sameSessions (a b : Sys W) : Prop := kubeconfigs b = kubeconfigs a.

(** A computation that leaves the identity-service client alone. *)
Definition KeepsIdentityClient {A} (m : M W A) : Prop :=
  ∀ s, stsClient (m s).2 = stsClient s.

(** A computation that leaves every [KubeConfig] allocated before it as it
    was (it may allocate new ones). *)
Definition KeepsSessions {A} (m : M W A) : Prop :=
  ∀ s, kubeconfigs s `prefix_of` kubeconfigs (m s).2.

(** The session [configureEKSAuth] loads for a described cluster, a region
    and the time the token was generated at. *)
Definition sessionConfig (details : ClusterDetails) (region : string) (timestamp : Z)
    : KubeConfig :=
  {| clusters := [ {| kc_name := cd_name details;
                      kc_server := cd_endpoint details;
                      kc_certificateAuthorityData := None;
                      kc_skipTLSVerify := false |} ];
     users := [ {| ku_name := cd_name details +:+ "-user";
                   ku_token :=
                     "k8s-aws-v1." +:+
                     base64 E (JSON_stringify E
                                 (STokenInfo (cd_name details) region timestamp)) |} ];
     contexts := [ {| kx_name := cd_name details;
                      kx_cluster := cd_name details;
                      kx_user := cd_name details +:+ "-user" |} ];
     currentContext := Some (cd_name details) |}.

(** Projection of the given pods and services, with the failure wrapping of
    [listClusterDeployments]. *)
Definition projectObjects (podItems : list V1Pod) (serviceItems : list V1Service)
    : M W DeploymentsInfo :=
  try_catch
    (podInfos <- mapM (podInfo E) podItems ;;
     serviceInfos <- mapM (serviceInfo E) serviceItems ;;
     ret {| pods := podInfos; services := serviceInfos |})
    (fun error =>
       throw (JsError ("Failed to list cluster deployments: "
                       +:+ errorMessage error "Unknown error"))).

End Vocabulary.

(** * Properties *)

(** ** Validators *)

Section ValidatorFacts.

Lemma typeofString_true v : typeofString v = true ↔ IsString v.
Proof.
  split.
  - destruct v; try discriminate. intros _. by eexists.
  - by intros [s ->].
Qed.

Lemma isArrayEvery_typeofString v :
  isArrayEvery typeofString v = true ↔ IsStringArray v.
Proof.
  split.
  - destruct v as [| | | | |items|]; try discriminate. simpl. intros H.
    exists items. split; [done|].
    apply Forall_forall. intros x Hx. apply typeofString_true.
    rewrite forallb_forall in H. apply H. by apply list_elem_of_In.
  - intros (items & -> & H). simpl. apply forallb_forall. intros x Hx.
    apply typeofString_true. rewrite Forall_forall in H. apply H.
    by apply list_elem_of_In.
Qed.

Lemma optionalString_true v :
  optionalString v = true ↔ v = JsUndefined ∨ IsString v.
Proof.
  unfold optionalString. rewrite orb_true_iff, typeofString_true.
  split; (intros [H|H]; [left|by right]).
  - by destruct v.
  - by subst.
Qed.

Lemma isValidCreateClusterArgs_required args :
  isValidCreateClusterArgs args = true → CreateArgsRequired args.
Proof.
  unfold isValidCreateClusterArgs, CreateArgsRequired.
  rewrite !andb_true_iff, !typeofString_true, isArrayEvery_typeofString.
  tauto.
Qed.

Lemma isValidClusterStatusArgs_shape args :
  isValidClusterStatusArgs args = true ↔ ClusterArgsShape args.
Proof.
  unfold isValidClusterStatusArgs, ClusterArgsShape.
  rewrite !andb_true_iff, typeofString_true, optionalString_true.
  split; [tauto|]. intros [[s Hs] Hr].
  assert (typeofObject args = true ∧ negb (isNull args) = true) as [? ?]
    by (destruct args; simpl in Hs; try discriminate; done).
  split; [split; [split; assumption|by exists s]|assumption].
Qed.

Lemma isValidDeleteClusterArgs_shape args :
  isValidDeleteClusterArgs args = true ↔ ClusterArgsShape args.
Proof. apply isValidClusterStatusArgs_shape. Qed.

(** The guard narrows: on accepted arguments the typed view reads back
    exactly the strings the object holds. *)
Lemma asCreateClusterRequest_valid args :
  isValidCreateClusterArgs args = true →
  getProp args "clusterName" = JsString (clusterName (asCreateClusterRequest args)) ∧
  getProp args "region" = JsString (region (asCreateClusterRequest args)) ∧
  getProp args "subnetIds" =
    JsArray (JsString <$> subnetIds (asCreateClusterRequest args)).
Proof.
  intros H. apply isValidCreateClusterArgs_required in H.
  destruct H as ([cn Hcn] & [r Hr] & _ & _ & (items & Hitems & Hall)).
  unfold asCreateClusterRequest, stringProp, stringsProp. simpl.
  rewrite Hcn, Hr, Hitems. repeat split. f_equal. clear Hitems.
  induction Hall as [|x l [sx ->] _ IH]; [done|].
  rewrite !fmap_cons. simpl. by f_equal.
Qed.

End ValidatorFacts.

(** ** The create-cluster command *)

Section CreateCommand.
Context {W : Type} (E : External W).

(** [createCluster] issues exactly one control-plane request, the command
    built from the request, whatever the region and whatever the answer. *)
Lemma createCluster_calls (request : CreateClusterRequest) (s : Sys W) :
  ∃ cfg,
    calls (createCluster E request s).2 =
      calls s ++ [EksSend cfg (CreateClusterCommand (createClusterInput request))].
Proof.
  unfold createCluster, try_catch, bind, updateRegionIfDifferent, bind,
    configuredRegion, sendCreateCluster, external.
  simpl. destruct (eks_createCluster _ _ _ _) as [[[cluster|]|e] w']; simpl; eauto.
Qed.

(** C1: the command [createCluster] sends enables private and public
    endpoint access, enables logging for exactly the five log types, and
    carries the request's [publicAccessCidrs] when present and
    [["0.0.0.0/0"]] when absent. *)
Theorem createCluster_command (request : CreateClusterRequest) (s : Sys W) :
  ∃ cfg input,
    calls (createCluster E request s).2 =
      calls s ++ [EksSend cfg (CreateClusterCommand input)] ∧
    rq_endpointPrivateAccess (in_resourcesVpcConfig input) = true ∧
    rq_endpointPublicAccess (in_resourcesVpcConfig input) = true ∧
    in_clusterLogging input =
      [ {| types := ["api"; "audit"; "authenticator"; "controllerManager"; "scheduler"];
           enabled := true |} ] ∧
    rq_publicAccessCidrs (in_resourcesVpcConfig input) =
      match publicAccessCidrs request with
      | Some cidrs => cidrs
      | None => ["0.0.0.0/0"]
      end.
Proof.
  destruct (createCluster_calls request s) as [cfg Hcalls].
  exists cfg, (createClusterInput request).
  split; [exact Hcalls|]. by repeat split.
Qed.

End CreateCommand.

Example createCluster_default_cidrs :
  rq_publicAccessCidrs (in_resourcesVpcConfig (createClusterInput (sampleRequest None)))
  = ["0.0.0.0/0"].
Proof. reflexivity. Qed.

Example createCluster_given_cidrs :
  rq_publicAccessCidrs
    (in_resourcesVpcConfig (createClusterInput (sampleRequest (Some ["10.0.0.0/8"]))))
  = ["10.0.0.0/8"].
Proof. reflexivity. Qed.

(** ** Validation before dispatch *)

Section Validation.
Context {W : Type} (E : External W).

(** C2 (as the code has it): [create_eks_cluster] arguments are accepted
    only if [clusterName], [region], [kubernetesVersion] and [roleArn] are
    strings and [subnetIds] is an array of strings, of any length; arguments
    that are not of that shape are answered with [InvalidParams] and the
    state is left as it was: nothing was sent to the control plane. *)
Theorem create_args_rejected (args : JsValue) (s : Sys W) :
  ¬ CreateArgsRequired args →
  isValidCreateClusterArgs args = false ∧
  callTool E "create_eks_cluster" args s =
    (Throw (McpError InvalidParams "Invalid arguments for create_eks_cluster"), s).
Proof.
  intros Hshape.
  assert (isValidCreateClusterArgs args = false) as Hinvalid.
  { destruct (isValidCreateClusterArgs args) eqn:Hv; [|done].
    destruct Hshape. by apply isValidCreateClusterArgs_required. }
  split; [done|].
  unfold callTool, try_catch. repeat (case_decide; [discriminate|]).
  case_decide; [|done]. by rewrite Hinvalid.
Qed.

(** C5 (as the code has it): [get_eks_cluster_status] and
    [delete_eks_cluster] arguments are accepted only if [clusterName] is a
    string, of any length, and [region] is absent or a string; arguments
    that are not of that shape are answered with [InvalidParams] and never
    dispatched. *)
Theorem cluster_args_rejected (args : JsValue) (s : Sys W) :
  ¬ ClusterArgsShape args →
  isValidClusterStatusArgs args = false ∧
  isValidDeleteClusterArgs args = false ∧
  callTool E "get_eks_cluster_status" args s =
    (Throw (McpError InvalidParams "Invalid arguments for get_eks_cluster_status"), s) ∧
  callTool E "delete_eks_cluster" args s =
    (Throw (McpError InvalidParams "Invalid arguments for delete_eks_cluster"), s).
Proof.
  intros Hshape.
  assert (isValidClusterStatusArgs args = false) as Hstatus.
  { destruct (isValidClusterStatusArgs args) eqn:Hv; [|done].
    destruct Hshape. by apply isValidClusterStatusArgs_shape. }
  assert (isValidDeleteClusterArgs args = false) as Hdelete by exact Hstatus.
  repeat split; try done.
  - unfold callTool, try_catch. repeat (case_decide; [discriminate|]).
    case_decide; [|done]. by rewrite Hstatus.
  - unfold callTool, try_catch. repeat (case_decide; [discriminate|]).
    case_decide; [|done]. by rewrite Hdelete.
Qed.

End Validation.

(** Arguments without [subnetIds] are turned away before anything is sent. *)
Lemma create_args_rejected_witness :
  callTool healthy "create_eks_cluster" createArgsMissingSubnetIds started =
    (Throw (McpError InvalidParams "Invalid arguments for create_eks_cluster"), started).
Proof.
  apply (create_args_rejected healthy createArgsMissingSubnetIds started).
  intros (_ & _ & _ & _ & (items & Hitems & _)).
  vm_compute in Hitems. discriminate Hitems.
Defined.

(** C2, as stated, fails: an empty [subnetIds] array passes validation and
    the create command is sent to the control plane. *)
Lemma create_empty_subnetIds_dispatched :
  getProp (createArgs []) "subnetIds" = JsArray [] ∧
  isValidCreateClusterArgs (createArgs []) = true ∧
  (callTool healthy "create_eks_cluster" (createArgs []) started).1 =
    Ok (textResult "{}") ∧
  calls (callTool healthy "create_eks_cluster" (createArgs []) started).2 =
    [EksSend (eksClient started)
       (CreateClusterCommand (createClusterInput (asCreateClusterRequest (createArgs []))))].
Proof. vm_compute. done. Qed.

(** Arguments without [clusterName] are turned away. *)
Lemma cluster_args_rejected_witness :
  callTool healthy "get_eks_cluster_status" (object [("region", JsString "us-east-1")]) started
  = (Throw (McpError InvalidParams "Invalid arguments for get_eks_cluster_status"), started).
Proof.
  apply (cluster_args_rejected healthy (object [("region", JsString "us-east-1")]) started).
  intros ([name Hname] & _). vm_compute in Hname. discriminate Hname.
Defined.

(** C5, as stated, fails: an empty [clusterName] passes validation and both
    tools are dispatched to the control plane. *)
Lemma empty_clusterName_dispatched :
  let args := object [("clusterName", JsString "")] in
  isValidClusterStatusArgs args = true ∧
  isValidDeleteClusterArgs args = true ∧
  calls (callTool healthy "get_eks_cluster_status" args started).2 =
    [EksSend (eksClient started) (DescribeClusterCommand "")] ∧
  calls (callTool healthy "delete_eks_cluster" args started).2 =
    [EksSend (eksClient started) (DeleteClusterCommand "")] ∧
  (callTool healthy "delete_eks_cluster" args started).1 = Ok (textResult "{}").
Proof. vm_compute. done. Qed.

(** ** Listing clusters *)

Section ListClusters.
Context {W : Type} (E : External W).

Lemma describeForList_run (name : string) (s : Sys W) :
  describeForList E name s =
    (Ok (summarize (ProviderOf (cfg_region (eksClient s))) name
           (eks_describeCluster E (eksClient s) name (world s)).1),
     record_call (EksSend (eksClient s) (DescribeClusterCommand name))
       (eks_describeCluster E (eksClient s) name (world s)).2 s).
Proof.
  unfold describeForList, try_catch, bind, sendDescribeCluster, external.
  destruct (eks_describeCluster E (eksClient s) name (world s)) as [[[cluster|]|e] w'];
    reflexivity.
Qed.

(** The fan-out never throws: it yields one entry per name, in order. *)
Lemma mapM_describeForList (names : list string) (s : Sys W) :
  ∃ s',
    mapM (describeForList E) names s =
      (Ok (zip_with (summarize (ProviderOf (cfg_region (eksClient s)))) names
             (detailOutcomes E (eksClient s) names (world s))), s').
Proof.
  revert s. induction names as [|name rest IH]; intros s; simpl.
  - by eexists.
  - unfold bind at 1. rewrite describeForList_run.
    destruct (eks_describeCluster E (eksClient s) name (world s)) as [outcome w'] eqn:Hd.
    simpl.
    destruct (IH (record_call (EksSend (eksClient s) (DescribeClusterCommand name)) w' s))
      as [s' Hrest].
    unfold bind. rewrite Hrest. simpl. by eexists.
Qed.



End ListClusters.


Example listClusters_three :
  (listClusters healthy started).1 =
    Ok [ {| ci_name := "alpha"; ci_region := ProviderOf "us-east-1"; ci_status := "ACTIVE" |};
         {| ci_name := "beta"; ci_region := ProviderOf "us-east-1"; ci_status := "UNKNOWN" |};
         {| ci_name := "gamma"; ci_region := ProviderOf "us-east-1"; ci_status := "ACTIVE" |} ].
Proof. vm_compute. reflexivity. Qed.

(** ** Failures of the control plane *)

Section ControlPlaneFailures.
Context {W : Type} (E : External W).

Lemma updateRegionIfDifferent_run (r : string) (s : Sys W) :
  updateRegionIfDifferent r s = (Ok tt, (updateRegionIfDifferent r s).2).
Proof.
  by unfold updateRegionIfDifferent, bind, configuredRegion.
Qed.

Lemma updateRegionIfProvided_run (region : option string) (s : Sys W) :
  updateRegionIfProvided region s = (Ok tt, (updateRegionIfProvided region s).2).
Proof.
  unfold updateRegionIfProvided, bind, configuredRegion.
  destruct region as [r|]; [|done]. by destruct (_ && _).
Qed.

Lemma createCluster_returns (request : CreateClusterRequest) (s : Sys W) :
  ∃ status s', createCluster E request s = (Ok status, s').
Proof.
  unfold createCluster, try_catch.
  destruct (bind _ _ s) as [[status|e] s']; by eauto.
Qed.

Lemma deleteCluster_returns (name : string) (region : option string) (s : Sys W) :
  ∃ status s', deleteCluster E name region s = (Ok status, s').
Proof.
  unfold deleteCluster, try_catch.
  destruct (bind _ _ s) as [[status|e] s']; by eauto.
Qed.

(** C4 (as the code has it): the two mutating operations never throw, and
    a refused request comes back as a [FAILURE] status whose message is
    derived from the error; [getClusterStatus] throws when its describe
    request is refused and [listClusters] throws when its enumeration
    request is refused, neither returning any value; once the enumeration
    has answered with a list, [listClusters] returns, whatever the detail
    requests answer. *)
Theorem control_plane_failures (s : Sys W) :
  (∀ request, ∃ status s', createCluster E request s = (Ok status, s')) ∧
  (∀ name region, ∃ status s', deleteCluster E name region s = (Ok status, s')) ∧
  (∀ request e w',
     let s1 := (updateRegionIfDifferent (region request) s).2 in
     eks_createCluster E (eksClient s1) (createClusterInput request) (world s1)
       = (Throw e, w') →
     (createCluster E request s).1 =
       Ok {| os_status := FAILURE;
             os_message := "Failed to create cluster: " +:+ errorMessage e "Unknown error";
             os_clusterDetails := None |}) ∧
  (∀ name region e w',
     let s1 := (updateRegionIfProvided region s).2 in
     eks_deleteCluster E (eksClient s1) name (world s1) = (Throw e, w') →
     (deleteCluster E name region s).1 =
       Ok {| os_status := FAILURE;
             os_message := "Failed to delete cluster: " +:+ errorMessage e "Unknown error";
             os_clusterDetails := None |}) ∧
  (∀ name region e w',
     let s1 := (updateRegionIfProvided region s).2 in
     eks_describeCluster E (eksClient s1) name (world s1) = (Throw e, w') →
     (getClusterStatus E name region s).1 =
       Throw (JsError ("Failed to get cluster status: "
                       +:+ errorMessage e "Unknown error"))) ∧
  (∀ e w',
     eks_listClusters E (eksClient s) (world s) = (Throw e, w') →
     (listClusters E s).1 =
       Throw (JsError ("Failed to list EKS clusters: " +:+ errorMessage e "Unknown error"))) ∧
  (∀ names w1,
     eks_listClusters E (eksClient s) (world s) = (Ok (Some names), w1) →
     ∃ infos s', listClusters E s = (Ok infos, s')).
Proof.
  split; [intros; apply createCluster_returns|].
  split; [intros; apply deleteCluster_returns|].
  split; [|split; [|split; [|split]]].
  - intros request e w' s1 Hsend.
    unfold createCluster, try_catch, bind.
    rewrite updateRegionIfDifferent_run. fold s1.
    unfold sendCreateCluster, external. by rewrite Hsend.
  - intros name region e w' s1 Hsend.
    unfold deleteCluster, try_catch, bind.
    rewrite updateRegionIfProvided_run. fold s1.
    unfold sendDeleteCluster, external. by rewrite Hsend.
  - intros name region e w' s1 Hsend.
    unfold getClusterStatus, try_catch, bind.
    rewrite updateRegionIfProvided_run. fold s1.
    unfold sendDescribeCluster, external. by rewrite Hsend.
  - intros e w' Hsend.
    unfold listClusters, try_catch, bind, sendListClusters, external.
    by rewrite Hsend.
  - intros names w1 Hsend.
    unfold listClusters, try_catch, bind, sendListClusters, external.
    rewrite Hsend.
    destruct (mapM_describeForList E names
                (record_call (EksSend (eksClient s) ListClustersCommand) w1 s))
      as [s' ->].
    by eexists _, _.
Qed.

End ControlPlaneFailures.

(** On a cloud that refuses everything: the mutating operations report
    [FAILURE], the read operations throw. *)
Lemma control_plane_failures_witness :
  (createCluster unreachable (sampleRequest None) started).1 =
    Ok {| os_status := FAILURE; os_message := "Failed to create cluster: AccessDenied";
          os_clusterDetails := None |} ∧
  (deleteCluster unreachable "demo" None started).1 =
    Ok {| os_status := FAILURE; os_message := "Failed to delete cluster: AccessDenied";
          os_clusterDetails := None |} ∧
  (getClusterStatus unreachable "demo" None started).1 =
    Throw (JsError "Failed to get cluster status: AccessDenied") ∧
  (listClusters unreachable started).1 =
    Throw (JsError "Failed to list EKS clusters: AccessDenied").
Proof.
  destruct (control_plane_failures unreachable started)
    as (_ & _ & Hcreate & Hdelete & Hstatus & Hlist & _).
  split; [|split; [|split]].
  - exact (Hcreate (sampleRequest None) accessDenied _ eq_refl).
  - exact (Hdelete "demo" None accessDenied _ eq_refl).
  - exact (Hstatus "demo" None accessDenied _ eq_refl).
  - exact (Hlist accessDenied _ eq_refl).
Defined.

(** C4, as stated, fails for [listClusters]: a detail request of the
    control plane is refused, yet the call returns a list, with that entry as
    [UNKNOWN], and throws nothing. *)
Lemma listClusters_detail_failure_not_thrown :
  eks_describeCluster healthy (eksClient started) "beta" (world started) =
    (Throw accessDenied, world started) ∧
  EksSend (eksClient started) (DescribeClusterCommand "beta")
    ∈ calls (listClusters healthy started).2 ∧
  (listClusters healthy started).1 =
    Ok [ {| ci_name := "alpha"; ci_region := ProviderOf "us-east-1"; ci_status := "ACTIVE" |};
         {| ci_name := "beta"; ci_region := ProviderOf "us-east-1"; ci_status := "UNKNOWN" |};
         {| ci_name := "gamma"; ci_region := ProviderOf "us-east-1"; ci_status := "ACTIVE" |} ].
Proof.
  split; [reflexivity|]. split; [|vm_compute; reflexivity].
  vm_compute. apply list_elem_of_In. simpl. tauto.
Qed.

(** ** Building the session *)

Section Session.
Context {W : Type} (E : External W).

(** C6: [configureEKSAuth] asks the identity service first.  If that
    request is refused the build aborts with an authentication-configuration
    error: the only call made is the identity check (the clock, which token
    generation reads first, is never read) and no [KubeConfig] is touched.
    If it succeeds, the token is generated next and loaded into the session. *)
Theorem configureEKSAuth_identity_first
    (kc : nat) (details : ClusterDetails) (region : string) (s : Sys W) :
  let check := StsGetCallerIdentity (stsClient s) in
  let run := configureEKSAuth E kc details region s in
  match sts_getCallerIdentity E (stsClient s) (world s) with
  | (Throw e, w') =>
      run.1 = Throw (JsError ("Failed to configure EKS authentication: "
                              +:+ ("Failed to get caller identity: "
                                   +:+ errorMessage e "Unknown error"))) ∧
      calls run.2 = calls s ++ [check] ∧
      kubeconfigs run.2 = kubeconfigs s ∧
      world run.2 = w'
  | (Ok identity, w') =>
      let token :=
        "k8s-aws-v1." +:+
        base64 E (JSON_stringify E (STokenInfo (cd_name details) region (clock E w').1)) in
      run.1 = Ok tt ∧
      calls run.2 = calls s ++ [check; ClockRead] ∧
      kubeconfigs run.2 =
        <[kc := {| clusters := [ {| kc_name := cd_name details;
                                    kc_server := cd_endpoint details;
                                    kc_certificateAuthorityData := None;
                                    kc_skipTLSVerify := false |} ];
                   users := [ {| ku_name := cd_name details +:+ "-user";
                                 ku_token := token |} ];
                   contexts := [ {| kx_name := cd_name details;
                                    kx_cluster := cd_name details;
                                    kx_user := cd_name details +:+ "-user" |} ];
                   currentContext := Some (cd_name details) |}]> (kubeconfigs s)
  end.
Proof.
  unfold configureEKSAuth, try_catch, bind, getCallerIdentity, try_catch, external.
  destruct (sts_getCallerIdentity E (stsClient s) (world s)) as [[identity|e] w'] eqn:Hsts;
    simpl.
  - unfold generateEKSToken, bind, now, external. simpl.
    destruct (clock E w') as [t w''] eqn:Hclock. simpl.
    repeat split. by rewrite <- app_assoc.
  - done.
Qed.

End Session.

(** With the identity service refusing, an inspection call stops after the
    identity check: the allocated session stays empty and the cluster is
    never contacted. *)
Example listDeployments_identity_refused :
  (listClusterDeployments identityRefused "alpha" None None started).1 =
    Throw (JsError "Failed to list cluster deployments: Failed to configure EKS authentication: Failed to get caller identity: AccessDenied") ∧
  calls (listClusterDeployments identityRefused "alpha" None None started).2 =
    [EksSend (eksClient started) (DescribeClusterCommand "alpha");
     StsGetCallerIdentity (stsClient started)] ∧
  kubeconfigs (listClusterDeployments identityRefused "alpha" None None started).2 =
    [emptyKubeConfig].
Proof. vm_compute. done. Qed.

(** ** Age rendering *)

Section Age.
Context {W : Type} (E : External W).

(** For a non-negative difference the remainders taken before the hour and
    minute divisions change nothing in the branch that is rendered. *)
Lemma renderAge_nonneg (diff : Z) :
  0 ≤ diff →
  renderAge diff =
    if bool_decide (1 ≤ diff `div` 86400000) then pretty (diff `div` 86400000) +:+ "d"
    else if bool_decide (1 ≤ diff `div` 3600000) then pretty (diff `div` 3600000) +:+ "h"
    else pretty (diff `div` 60000) +:+ "m".
Proof.
  intros Hdiff. unfold renderAge, numberToString, msPerDay, msPerHour, msPerMinute.
  change (1000 * 60 * 60 * 24) with 86400000.
  change (1000 * 60 * 60) with 3600000.
  change (1000 * 60) with 60000.
  destruct (decide (1 ≤ diff `div` 86400000)) as [Hd|Hd].
  - rewrite !bool_decide_eq_true_2 by lia. done.
  - rewrite (bool_decide_eq_false_2 (0 < _)) by lia.
    rewrite (bool_decide_eq_false_2 (1 ≤ diff `div` 86400000)) by lia.
    assert (diff < 86400000) as Hsmall.
    { destruct (decide (diff < 86400000)) as [|Hbig]; [done|].
      destruct Hd. apply Z.div_le_lower_bound; lia. }
    rewrite (Z.rem_small diff 86400000) by lia.
    destruct (decide (1 ≤ diff `div` 3600000)) as [Hh|Hh].
    + rewrite !bool_decide_eq_true_2 by lia. done.
    + rewrite (bool_decide_eq_false_2 (0 < _)) by lia.
      rewrite (bool_decide_eq_false_2 (1 ≤ diff `div` 3600000)) by lia.
      assert (diff < 3600000) as Hsmall'.
      { destruct (decide (diff < 3600000)) as [|Hbig]; [done|].
        destruct Hh. apply Z.div_le_lower_bound; lia. }
      by rewrite (Z.rem_small diff 3600000) by lia.
Qed.

(** C7: with creation time [created] and current time [current ≥ created],
    the age is the whole number of days followed by "d" when that is at
    least 1, otherwise the whole number of hours followed by "h" when that
    is at least 1, otherwise the whole number of minutes followed by "m"
    (possibly "0m"); a missing creation timestamp renders "unknown". *)
Theorem calculateAge_rendering
    (timestamp : string) (created current : Z) (w' : W) (s : Sys W) :
  timestamp ≠ "" →
  Date_parse E timestamp = Some created →
  clock E (world s) = (current, w') →
  created ≤ current →
  (calculateAge E (Some timestamp) s).1 =
    Ok (let diff := current - created in
        if bool_decide (1 ≤ diff `div` 86400000)
        then pretty (diff `div` 86400000) +:+ "d"
        else if bool_decide (1 ≤ diff `div` 3600000)
        then pretty (diff `div` 3600000) +:+ "h"
        else pretty (diff `div` 60000) +:+ "m") ∧
  calculateAge E None s = (Ok "unknown", s).
Proof.
  intros Hne Hparse Hclock Hle. split; [|done].
  unfold calculateAge. case_decide; [done|].
  unfold bind, now, external. rewrite Hclock, Hparse. simpl.
  f_equal. apply renderAge_nonneg. lia.
Qed.

End Age.

(** An object created ten minutes before the server's clock reads. *)
Lemma calculateAge_rendering_witness :
  (calculateAge healthy (Some "1700000000000") started).1 = Ok "10m" ∧
  calculateAge healthy None started = (Ok "unknown", started).
Proof.
  apply (calculateAge_rendering healthy "1700000000000" 1700000000000 1700000600000
           1700000600001 started).
  - discriminate.
  - vm_compute. reflexivity.
  - reflexivity.
  - lia.
Defined.

Example age_two_days_three_hours : renderAge (2 * msPerDay + 3 * msPerHour) = "2d".
Proof. vm_compute. reflexivity. Qed.

Example age_three_hours : renderAge (3 * msPerHour) = "3h".
Proof. vm_compute. reflexivity. Qed.

Example age_thirty_minutes : renderAge (30 * msPerMinute) = "30m".
Proof. vm_compute. reflexivity. Qed.

Example age_zero_minutes : renderAge 59999 = "0m".
Proof. vm_compute. reflexivity. Qed.

(** ** External IP of a service *)

(** C8, at the input where the code departs from it: a service whose
    load-balancer status holds an empty ingress list.  The projection does
    not produce a string: reading [.ip] off [ingress[0]] throws. *)
Theorem getExternalIP_empty_ingress_throws :
  svc_ingress emptyIngressService = Some [] ∧
  getExternalIP emptyIngressService =
    Throw (JsError "Cannot read properties of undefined (reading 'ip')").
Proof. split; reflexivity. Qed.

(** X20: for every service whose ingress list is not the empty list the
    projection returns a string: the IP of the first ingress, else its
    hostname, else "<pending>" (an empty IP or hostname counts as absent);
    without an ingress list, the external IPs joined by commas when there is
    at least one, else "<none>". *)
Lemma getExternalIP_otherwise (service : V1Service) :
  svc_ingress service ≠ Some [] →
  getExternalIP service =
    Ok match svc_ingress service with
       | Some (ingress :: _) =>
           orString (lb_ip ingress) (orString (lb_hostname ingress) "<pending>")
       | _ =>
           match svc_spec service ≫= ss_externalIPs with
           | Some (ip :: ips) => join "," (ip :: ips)
           | _ => "<none>"
           end
       end.
Proof.
  intros Hne. unfold getExternalIP.
  destruct (svc_ingress service) as [[|ingress rest]|]; [done|done|].
  destruct (svc_spec service ≫= ss_externalIPs) as [[|ip ips]|]; done.
Qed.

(** One such service makes the whole projection of a service fail. *)
Example serviceInfo_empty_ingress :
  serviceInfo healthy emptyIngressService started =
    (Throw (JsError "Cannot read properties of undefined (reading 'ip')"), started).
Proof. vm_compute. reflexivity. Qed.

(** ** Region switches *)

Section RegionSwitch.
Context {W : Type} (E : External W).

Lemma KeepsClient_read {A} (r : Sys W → Result A) : KeepsClient (fun s : Sys W => (r s, s)).
Proof.
  intros s. split; [done|]. exists []. split; [by rewrite app_nil_r|]. constructor.
Qed.

Lemma KeepsClient_pure {A} (r : Result A) : KeepsClient (fun s : Sys W => (r, s)).
Proof. apply (KeepsClient_read (fun _ => r)). Qed.

Lemma KeepsClient_bind {A B} (m : M W A) (k : A → M W B) :
  KeepsClient m → (∀ a, KeepsClient (k a)) → KeepsClient (bind m k).
Proof.
  intros Hm Hk s. unfold bind.
  destruct (Hm s) as (Hc & new & Hcalls & Hsent).
  destruct (m s) as [[a|e] s1]; simpl in *; [|by eauto].
  destruct (Hk a s1) as (Hc' & new' & Hcalls' & Hsent').
  split; [congruence|]. exists (new ++ new'). split.
  - by rewrite Hcalls', Hcalls, app_assoc.
  - apply Forall_app. split; [done|]. by rewrite <- Hc.
Qed.

Lemma KeepsClient_try_catch {A} (body : M W A) (handler : Thrown → M W A) :
  KeepsClient body → (∀ e, KeepsClient (handler e)) → KeepsClient (try_catch body handler).
Proof.
  intros Hm Hk s. unfold try_catch.
  destruct (Hm s) as (Hc & new & Hcalls & Hsent).
  destruct (body s) as [[a|e] s1]; simpl in *; [by eauto|].
  destruct (Hk e s1) as (Hc' & new' & Hcalls' & Hsent').
  split; [congruence|]. exists (new ++ new'). split.
  - by rewrite Hcalls', Hcalls, app_assoc.
  - apply Forall_app. split; [done|]. by rewrite <- Hc.
Qed.

Lemma KeepsClient_mapM {A B} (f : A → M W B) (xs : list A) :
  (∀ x, KeepsClient (f x)) → KeepsClient (mapM f xs).
Proof.
  intros Hf. induction xs as [|x rest IH]; simpl.
  - apply (KeepsClient_pure (Ok [])).
  - apply KeepsClient_bind; [apply Hf|]. intros y.
    apply KeepsClient_bind; [apply IH|]. intros ys. apply (KeepsClient_pure (Ok _)).
Qed.

Lemma KeepsClient_attempt {A} (m : M W A) : KeepsClient m → KeepsClient (attempt m).
Proof. intros Hm s. exact (Hm s). Qed.

(** One external call, sent through the current client if it is a
    control-plane request. *)
Lemma KeepsClient_call {A} (c : Sys W → Call) (oracle : Sys W → W → Result A * W) :
  (∀ s, match c s with EksSend cfg _ => cfg = eksClient s | _ => True end) →
  KeepsClient (fun s => external (c s) (oracle s) s).
Proof.
  intros Hc s. unfold external. destruct (oracle s (world s)) as [r w']. simpl.
  split; [done|]. exists [c s]. split; [done|].
  constructor; [|constructor]. specialize (Hc s). by destruct (c s).
Qed.

Lemma KeepsClient_kubeconfigs (f : list KubeConfig → list KubeConfig) {A} (a : Sys W → A) :
  KeepsClient (fun s : Sys W => (Ok (a s), set_kubeconfigs (f (kubeconfigs s)) s)).
Proof.
  intros s. split; [done|]. exists []. split; [by rewrite app_nil_r|]. constructor.
Qed.

Lemma KeepsClient_updateRegion_absent : KeepsClient (updateRegionIfProvided (W := W) None).
Proof.
  apply KeepsClient_bind; [apply (KeepsClient_read (fun s => Ok (ProviderOf (cfg_region (eksClient s)))))|].
  intros current. apply (KeepsClient_pure (Ok tt)).
Qed.

Lemma KeepsClient_sendDescribeCluster (name : string) :
  KeepsClient (sendDescribeCluster E name).
Proof.
  apply (KeepsClient_call (fun s => EksSend (eksClient s) (DescribeClusterCommand name))
           (fun s => eks_describeCluster E (eksClient s) name)). done.
Qed.

Lemma KeepsClient_getClusterStatus (name : string) :
  KeepsClient (getClusterStatus E name None).
Proof.
  apply KeepsClient_try_catch; [|intros e; apply (KeepsClient_pure (Throw _))].
  apply KeepsClient_bind; [apply KeepsClient_updateRegion_absent|]. intros _.
  apply KeepsClient_bind; [apply KeepsClient_sendDescribeCluster|].
  intros [cluster|]; [apply (KeepsClient_pure (Ok _))|apply (KeepsClient_pure (Throw _))].
Qed.

Lemma KeepsClient_deleteCluster (name : string) :
  KeepsClient (deleteCluster E name None).
Proof.
  apply KeepsClient_try_catch; [|intros e; apply (KeepsClient_pure (Ok _))].
  apply KeepsClient_bind; [apply KeepsClient_updateRegion_absent|]. intros _.
  apply KeepsClient_bind; [|intros _; apply (KeepsClient_pure (Ok _))].
  apply (KeepsClient_call (fun s => EksSend (eksClient s) (DeleteClusterCommand name))
           (fun s => eks_deleteCluster E (eksClient s) name)). done.
Qed.

Lemma KeepsClient_listClusters : KeepsClient (listClusters E).
Proof.
  apply KeepsClient_try_catch; [|intros e; apply (KeepsClient_pure (Throw _))].
  apply KeepsClient_bind.
  { apply (KeepsClient_call (fun s => EksSend (eksClient s) ListClustersCommand)
             (fun s => eks_listClusters E (eksClient s))). done. }
  intros [names|]; [|apply (KeepsClient_pure (Ok _))].
  apply KeepsClient_mapM. intros name.
  apply KeepsClient_try_catch.
  - apply KeepsClient_bind; [apply KeepsClient_sendDescribeCluster|].
    intros [cluster|]; [|apply (KeepsClient_pure (Throw _))].
    apply KeepsClient_bind;
      [apply (KeepsClient_read (fun s => Ok (ProviderOf (cfg_region (eksClient s)))))|].
    intros r. apply (KeepsClient_pure (Ok _)).
  - intros e. apply KeepsClient_bind;
      [apply (KeepsClient_read (fun s => Ok (ProviderOf (cfg_region (eksClient s)))))|].
    intros r. apply (KeepsClient_pure (Ok _)).
Qed.

Lemma KeepsClient_now : KeepsClient (now E).
Proof.
  apply (KeepsClient_call (fun _ => ClockRead)
           (fun _ w => let '(t, w') := clock E w in (Ok t, w'))). done.
Qed.

Lemma KeepsClient_calculateAge (timestamp : option string) :
  KeepsClient (calculateAge E timestamp).
Proof.
  unfold calculateAge. destruct timestamp as [ts|]; [|apply (KeepsClient_pure (Ok _))].
  case_decide; [apply (KeepsClient_pure (Ok _))|].
  apply KeepsClient_bind; [apply KeepsClient_now|]. intros current.
  destruct (Date_parse E ts); apply (KeepsClient_pure (Ok _)).
Qed.

Lemma KeepsClient_configureEKSAuth (kc : nat) (details : ClusterDetails) (region : string) :
  KeepsClient (configureEKSAuth E kc details region).
Proof.
  apply KeepsClient_try_catch; [|intros e; apply (KeepsClient_pure (Throw _))].
  apply KeepsClient_bind.
  { apply KeepsClient_try_catch; [|intros e; apply (KeepsClient_pure (Throw _))].
    apply (KeepsClient_call (fun s => StsGetCallerIdentity (stsClient s))
             (fun s => sts_getCallerIdentity E (stsClient s))). done. }
  intros identity. apply KeepsClient_bind.
  { apply KeepsClient_bind; [apply KeepsClient_now|].
    intros timestamp. apply (KeepsClient_pure (Ok _)). }
  intros token.
  apply (KeepsClient_kubeconfigs (fun k => <[kc := _]> k) (fun _ => tt)).
Qed.

Lemma KeepsClient_listClusterDeployments (name : string) (namespace : option string) :
  KeepsClient (listClusterDeployments E name None namespace).
Proof.
  apply KeepsClient_try_catch; [|intros e; apply (KeepsClient_pure (Throw _))].
  apply KeepsClient_bind.
  - apply KeepsClient_bind; [apply KeepsClient_getClusterStatus|]. intros details.
    apply KeepsClient_bind.
    { apply (KeepsClient_kubeconfigs (fun k => k ++ [emptyKubeConfig])
               (fun s => length (kubeconfigs s))). }
    intros kc. apply KeepsClient_bind; [apply KeepsClient_configureEKSAuth|]. intros _.
    apply KeepsClient_bind.
    { apply (KeepsClient_read
               (fun s => Ok (default emptyKubeConfig (kubeconfigs s !! kc)))). }
    intros api. apply KeepsClient_bind.
    { apply (KeepsClient_call (fun _ => K8sListPods api)
               (fun _ => k8s_listPodForAllNamespaces E api)). done. }
    intros podItems. apply KeepsClient_bind.
    { apply (KeepsClient_call (fun _ => K8sListServices api)
               (fun _ => k8s_listServiceForAllNamespaces E api)). done. }
    intros serviceItems. apply (KeepsClient_pure (Ok _)).
  - intros items. apply KeepsClient_bind.
    { apply KeepsClient_mapM. intros pod.
      apply KeepsClient_bind; [apply KeepsClient_calculateAge|].
      intros age. apply (KeepsClient_pure (Ok _)). }
    intros podInfos. apply KeepsClient_bind; [|intros; apply (KeepsClient_pure (Ok _))].
    apply KeepsClient_mapM. intros service.
    apply KeepsClient_bind; [apply (KeepsClient_pure (getExternalIP service))|].
    intros ip. apply KeepsClient_bind; [apply KeepsClient_calculateAge|].
    intros age. apply (KeepsClient_pure (Ok _)).
Qed.

Lemma KeepsClient_runAll (later : list RegionlessCall) : KeepsClient (runAll E later).
Proof.
  induction later as [|c rest IH]; simpl; [apply (KeepsClient_pure (Ok tt))|].
  apply KeepsClient_bind; [|intros _; exact IH].
  destruct c; apply KeepsClient_attempt.
  - apply KeepsClient_listClusters.
  - apply KeepsClient_getClusterStatus.
  - apply KeepsClient_deleteCluster.
  - apply KeepsClient_listClusterDeployments.
Qed.

(** The region step of [getClusterStatus] and [deleteCluster] replaces the
    client for every non-empty region, that of [createCluster] for every
    region, whether or not the client is already configured with it. *)
Lemma region_step_replaces (r : string) (s : Sys W) :
  (r ≠ "" → updateRegionIfProvided (Some r) s = (Ok tt, set_eksClient (newRegionClient r) s)) ∧
  updateRegionIfDifferent r s = (Ok tt, set_eksClient (newRegionClient r) s).
Proof.
  split; [|done]. intros Hne.
  unfold updateRegionIfProvided, bind, configuredRegion. simpl.
  by rewrite bool_decide_eq_true_2.
Qed.

(** C9: [getClusterStatus], [createCluster] or [deleteCluster] called with
    a region (a non-empty string) that differs from the one the client is
    configured with replaces the shared client by one configured with that
    region and no static credentials, and sends its request through it;
    every later call that names no region leaves that client in place and
    sends its control-plane requests through it. *)
Theorem region_switch_persists (s : Sys W) (r : string) :
  r ≠ "" →
  r ≠ cfg_region (eksClient s) →
  let replaced := {| cfg_region := r; cfg_credentials := None |} in
  (∀ request, region request = r →
     eksClient (createCluster E request s).2 = replaced ∧
     calls (createCluster E request s).2 =
       calls s ++ [EksSend replaced (CreateClusterCommand (createClusterInput request))]) ∧
  (∀ name,
     (eksClient (getClusterStatus E name (Some r) s).2 = replaced ∧
      calls (getClusterStatus E name (Some r) s).2 =
        calls s ++ [EksSend replaced (DescribeClusterCommand name)]) ∧
     (eksClient (deleteCluster E name (Some r) s).2 = replaced ∧
      calls (deleteCluster E name (Some r) s).2 =
        calls s ++ [EksSend replaced (DeleteClusterCommand name)])) ∧
  (∀ s1 later, eksClient s1 = replaced →
     eksClient (runAll E later s1).2 = replaced ∧
     ∃ new, calls (runAll E later s1).2 = calls s1 ++ new ∧ sentThrough replaced new).
Proof.
  intros Hne Hdiff replaced.
  destruct (region_step_replaces r s) as [Hprovided Hdifferent].
  specialize (Hprovided Hne). split; [|split].
  - intros request <-.
    unfold createCluster, try_catch, bind. rewrite !Hdifferent.
    unfold sendCreateCluster, external. simpl.
    by destruct (eks_createCluster _ _ _ _) as [[[cluster|]|e] w'].
  - intros name. split.
    + unfold getClusterStatus, try_catch, bind. rewrite !Hprovided.
      unfold sendDescribeCluster, external. simpl.
      by destruct (eks_describeCluster _ _ _ _) as [[[cluster|]|e] w'].
    + unfold deleteCluster, try_catch, bind. rewrite !Hprovided.
      unfold sendDeleteCluster, external. simpl.
      by destruct (eks_deleteCluster _ _ _ _) as [[[]|e] w'].
  - intros s1 later Hs1.
    destruct (KeepsClient_runAll later s1) as (Hclient & new & Hcalls & Hsent).
    rewrite Hs1 in Hclient, Hsent. eauto.
Qed.

End RegionSwitch.

(** A server constructed with static credentials in us-east-1 is asked
    about a cluster in eu-west-1: the client that remains has that region
    and no credentials, also after two later calls that name no region. *)
Lemma region_switch_persists_witness :
  let s1 := (getClusterStatus healthy "alpha" (Some "eu-west-1") startedWithCredentials).2 in
  eksClient s1 = {| cfg_region := "eu-west-1"; cfg_credentials := None |} ∧
  eksClient (runAll healthy [CallListClusters; CallDeleteCluster "alpha"] s1).2 =
    {| cfg_region := "eu-west-1"; cfg_credentials := None |}.
Proof.
  assert ("eu-west-1" ≠ "") as Hne by discriminate.
  assert ("eu-west-1" ≠ cfg_region (eksClient startedWithCredentials)) as Hdiff
    by discriminate.
  destruct (region_switch_persists healthy startedWithCredentials "eu-west-1" Hne Hdiff)
    as (_ & Hswitch & Hlater).
  destruct (Hswitch "alpha") as ((Hclient & _) & _).
  split; [exact Hclient|].
  exact (proj1 (Hlater _ [CallListClusters; CallDeleteCluster "alpha"] Hclient)).
Defined.

(** The empty string is no region to [getClusterStatus] and
    [deleteCluster]: the client stays, static credentials included. *)
Example empty_region_is_no_region :
  eksClient (getClusterStatus healthy "alpha" (Some "") startedWithCredentials).2 =
    {| cfg_region := "us-east-1";
       cfg_credentials := Some {| sc_accessKeyId := Some "AKIAEXAMPLE";
                                  sc_secretAccessKey := Some "secret";
                                  sc_sessionToken := None |} |} ∧
  eksClient (deleteCluster healthy "alpha" (Some "") startedWithCredentials).2 =
    eksClient startedWithCredentials.
Proof. vm_compute. done. Qed.

(** Naming the region the client is already configured with replaces the
    client all the same, and drops the static credentials. *)
Example same_region_drops_credentials :
  cfg_region (eksClient startedWithCredentials) = "us-east-1" ∧
  eksClient (getClusterStatus healthy "alpha" (Some "us-east-1") startedWithCredentials).2 =
    {| cfg_region := "us-east-1"; cfg_credentials := None |} ∧
  calls (getClusterStatus healthy "alpha" (Some "us-east-1") startedWithCredentials).2 =
    [EksSend {| cfg_region := "us-east-1"; cfg_credentials := None |}
       (DescribeClusterCommand "alpha")].
Proof. vm_compute. done. Qed.

Example constructor_then_switch_drops_credentials :
  cfg_credentials (eksClient startedWithCredentials) ≠ None ∧
  cfg_credentials
    (eksClient (createCluster healthy (sampleRequest None) startedWithCredentials).2) = None.
Proof. split; [discriminate|]. vm_compute. reflexivity. Qed.

(** ** Namespace filtering *)

Section Namespaces.
Context {W : Type} (E : External W).

Lemma targetNamespace_none :
  targetNamespace None = None ∧
  targetNamespace (Some "") = None ∧
  targetNamespace (Some "all") = None.
Proof. done. Qed.

Lemma targetNamespace_some (ns : string) :
  ns ≠ "" → ns ≠ "all" → targetNamespace (Some ns) = Some ns.
Proof.
  intros Hempty Hall. unfold targetNamespace, truthyString.
  rewrite (bool_decide_eq_false_2 (Some ns = Some "all")) by congruence.
  by rewrite (bool_decide_eq_true_2 (ns ≠ "")).
Qed.

Lemma listClusterDeployments_fetched
    (clusterName : string) (region namespace : option string)
    (podItems : list V1Pod) (serviceItems : list V1Service) (s s1 : Sys W) :
  fetchClusterObjects E clusterName region s = (Ok (podItems, serviceItems), s1) →
  listClusterDeployments E clusterName region namespace s =
    projectObjects E
      (filterByNamespace pod_metadata (targetNamespace namespace) podItems)
      (filterByNamespace svc_metadata (targetNamespace namespace) serviceItems) s1.
Proof.
  intros Hfetch. unfold listClusterDeployments, projectObjects, try_catch.
  unfold bind at 1. by rewrite Hfetch.
Qed.

(** C10: the empty namespace, like an absent one and like ["all"], filters
    nothing: the three calls are the same computation, projecting every
    fetched pod and service.  Any other namespace projects exactly the
    fetched objects whose namespace field equals it. *)
Theorem namespace_filtering (clusterName : string) (region : option string) (s : Sys W) :
  listClusterDeployments E clusterName region (Some "") s =
    listClusterDeployments E clusterName region None s ∧
  listClusterDeployments E clusterName region (Some "all") s =
    listClusterDeployments E clusterName region None s ∧
  ∀ podItems serviceItems s1,
    fetchClusterObjects E clusterName region s = (Ok (podItems, serviceItems), s1) →
    listClusterDeployments E clusterName region None s =
      projectObjects E podItems serviceItems s1 ∧
    ∀ ns, ns ≠ "" → ns ≠ "all" →
      listClusterDeployments E clusterName region (Some ns) s =
        projectObjects E
          (List.filter
             (fun pod => bool_decide (pod_metadata pod ≫= om_namespace = Some ns)) podItems)
          (List.filter
             (fun service => bool_decide (svc_metadata service ≫= om_namespace = Some ns))
             serviceItems) s1.
Proof.
  split; [done|]. split; [done|].
  intros podItems serviceItems s1 Hfetch. split.
  - by rewrite (listClusterDeployments_fetched _ _ _ _ _ _ _ Hfetch).
  - intros ns Hempty Hall.
    rewrite (listClusterDeployments_fetched _ _ _ _ _ _ _ Hfetch).
    by rewrite targetNamespace_some.
Qed.

End Namespaces.

(** What is fetched from the sample cluster. *)
Lemma sample_fetch :
  fetchClusterObjects healthy "alpha" None started =
    (Ok (samplePods, sampleServices), (fetchClusterObjects healthy "alpha" None started).2).
Proof. vm_compute. reflexivity. Defined.

(** On the sample cluster the namespace [default] returns only the pod and
    the service that live in it. *)
Lemma namespace_filtering_witness :
  ∃ d, (listClusterDeployments healthy "alpha" None (Some "default") started).1 = Ok d ∧
       pi_name <$> pods d = ["web-1"] ∧ si_name <$> services d = ["web"].
Proof.
  destruct (namespace_filtering healthy "alpha" None started) as (_ & _ & Hfetched).
  destruct (Hfetched _ _ _ sample_fetch) as [_ Hns].
  rewrite (Hns "default") by discriminate.
  vm_compute. eexists. split; [reflexivity|split; reflexivity].
Defined.

Example empty_namespace_returns_everything :
  (listClusterDeployments healthy "alpha" None (Some "") started).1 =
    (listClusterDeployments healthy "alpha" None None started).1 ∧
  (pi_name <$>
     match (listClusterDeployments healthy "alpha" None (Some "") started).1 with
     | Ok d => pods d
     | Throw _ => []
     end) = ["web-1"; "dns-1"].
Proof. split; vm_compute; reflexivity. Qed.

(** ** The dispatcher *)

Section Dispatcher.
Context {W : Type} (E : External W).

(** A handler renders what its operation returns and wraps what it throws. *)
Lemma handler_run {A} (m : M W A) (render : A → string) (prefix : string) (s : Sys W) :
  try_catch (x <- m ;; ret (textResult (render x)))
    (fun error =>
       throw (McpError InternalError (prefix +:+ errorMessage error "Unknown error"))) s =
  match m s with
  | (Ok x, s') => (Ok (textResult (render x)), s')
  | (Throw e, s') =>
      (Throw (McpError InternalError (prefix +:+ errorMessage e "Unknown error")), s')
  end.
Proof. unfold try_catch, bind. by destruct (m s) as [[x|e] s']. Qed.

Lemma handler_protocol {A} (m : M W A) (render : A → string) (prefix : string) (s : Sys W) :
  ProtocolOutcome
    (try_catch (x <- m ;; ret (textResult (render x)))
       (fun error =>
          throw (McpError InternalError (prefix +:+ errorMessage error "Unknown error"))) s).1.
Proof.
  rewrite handler_run. destruct (m s) as [[x|e] s']; simpl; eauto.
Qed.

(** The outer catch of [callTool] passes protocol outcomes through. *)
Lemma rethrow_protocol (body : M W ToolResult) (s : Sys W) :
  ProtocolOutcome (body s).1 →
  try_catch body
    (fun error =>
       if isMcpError error then throw error
       else
         ret {| content :=
                  [ {| tc_type := "text";
                       tc_text := "Error: " +:+ errorMessage error "Unknown error occurred" |} ];
                isError := Some true |}) s = body s.
Proof.
  unfold try_catch. destruct (body s) as [[result|e] s']; [done|].
  simpl. by intros (code & message & ->).
Qed.

Lemma callTool_list (args : JsValue) (s : Sys W) :
  callTool E "list_eks_clusters" args s = handleListClusters E s.
Proof.
  unfold callTool. rewrite rethrow_protocol; [done|].
  simpl. apply (handler_protocol (listClusters E) (fun x => JSON_stringify E (SClusters x))).
Qed.

Lemma callTool_status (args : JsValue) (s : Sys W) :
  isValidClusterStatusArgs args = true →
  callTool E "get_eks_cluster_status" args s = handleGetClusterStatus E args s.
Proof.
  intros Hvalid. unfold callTool. rewrite rethrow_protocol; simpl; rewrite Hvalid; [done|].
  apply (handler_protocol (getClusterStatus E _ _) (fun x => JSON_stringify E (SDetails x))).
Qed.

Lemma callTool_create (args : JsValue) (s : Sys W) :
  isValidCreateClusterArgs args = true →
  callTool E "create_eks_cluster" args s =
    handleCreateCluster E (asCreateClusterRequest args) s.
Proof.
  intros Hvalid. unfold callTool. rewrite rethrow_protocol; simpl; rewrite Hvalid; [done|].
  apply (handler_protocol (createCluster E _) (fun x => JSON_stringify E (SStatus x))).
Qed.

Lemma callTool_delete (args : JsValue) (s : Sys W) :
  isValidDeleteClusterArgs args = true →
  callTool E "delete_eks_cluster" args s = handleDeleteCluster E args s.
Proof.
  intros Hvalid. unfold callTool. rewrite rethrow_protocol; simpl; rewrite Hvalid; [done|].
  apply (handler_protocol (deleteCluster E _ _) (fun x => JSON_stringify E (SStatus x))).
Qed.

Lemma callTool_deployments (args : JsValue) (s : Sys W) :
  isValidListDeploymentsArgs args = true →
  callTool E "list_cluster_deployments" args s = handleListDeployments E args s.
Proof.
  intros Hvalid. unfold callTool. rewrite rethrow_protocol; simpl; rewrite Hvalid; [done|].
  apply (handler_protocol (listClusterDeployments E _ _ _)
           (fun x => JSON_stringify E (SDeployments x))).
Qed.

Lemma callTool_invalid (name : string) (valid : bool) (args : JsValue) (s : Sys W) :
  (name = "get_eks_cluster_status" ∧ valid = isValidClusterStatusArgs args) ∨
  (name = "create_eks_cluster" ∧ valid = isValidCreateClusterArgs args) ∨
  (name = "delete_eks_cluster" ∧ valid = isValidDeleteClusterArgs args) ∨
  (name = "list_cluster_deployments" ∧ valid = isValidListDeploymentsArgs args) →
  valid = false →
  callTool E name args s =
    (Throw (McpError InvalidParams ("Invalid arguments for " +:+ name)), s).
Proof.
  intros [[-> ->]|[[-> ->]|[[-> ->]|[-> ->]]]] Hinvalid;
    unfold callTool, try_catch; simpl; by rewrite Hinvalid.
Qed.

Lemma callTool_unknown (name : string) (args : JsValue) (s : Sys W) :
  name ∉ td_name <$> listTools →
  callTool E name args s = (Throw (McpError MethodNotFound ("Unknown tool: " +:+ name)), s).
Proof.
  intros Hname. unfold callTool, try_catch.
  repeat (case_decide; [destruct Hname; subst; simpl; set_solver|]). done.
Qed.

(** The outcome of any call is a result without an error flag or a
    protocol error; a valid or invalid call of a known tool is never answered
    with [MethodNotFound]. *)
Lemma callTool_known_outcome (name : string) (args : JsValue) (s : Sys W) :
  name ∈ td_name <$> listTools →
  match (callTool E name args s).1 with
  | Ok result => ∃ text, result = textResult text
  | Throw e =>
      ∃ message, e = McpError InvalidParams message ∨ e = McpError InternalError message
  end.
Proof.
  intros Hname. simpl in Hname. rewrite !elem_of_cons in Hname.
  destruct Hname as [->|[->|[->|[->|[->|Hname]]]]]; [| | | | |by apply elem_of_nil in Hname].
  - rewrite callTool_list. unfold handleListClusters. rewrite handler_run.
    destruct (listClusters E s) as [[x|e] s']; simpl; eauto.
  - destruct (isValidClusterStatusArgs args) eqn:Hvalid.
    + rewrite callTool_status by done. unfold handleGetClusterStatus. rewrite handler_run.
      destruct (getClusterStatus E _ _ s) as [[x|e] s']; simpl; eauto.
    + rewrite (callTool_invalid _ false) by (simpl; eauto 10). simpl. eauto.
  - destruct (isValidCreateClusterArgs args) eqn:Hvalid.
    + rewrite callTool_create by done. unfold handleCreateCluster. rewrite handler_run.
      destruct (createCluster E _ s) as [[x|e] s']; simpl; eauto.
    + rewrite (callTool_invalid _ false) by (simpl; eauto 10). simpl. eauto.
  - destruct (isValidDeleteClusterArgs args) eqn:Hvalid.
    + rewrite callTool_delete by done. unfold handleDeleteCluster. rewrite handler_run.
      destruct (deleteCluster E _ _ s) as [[x|e] s']; simpl; eauto.
    + rewrite (callTool_invalid _ false) by (simpl; eauto 10). simpl. eauto.
  - destruct (isValidListDeploymentsArgs args) eqn:Hvalid.
    + rewrite callTool_deployments by done. unfold handleListDeployments.
      rewrite handler_run.
      destruct (listClusterDeployments E _ _ _ s) as [[x|e] s']; simpl; eauto.
    + rewrite (callTool_invalid _ false) by (simpl; eauto 10). simpl. eauto.
Qed.

(** X1: a tool name outside the catalogue is answered with
    [MethodNotFound] naming it, and nothing is dispatched; a name of the
    catalogue is never answered with [MethodNotFound]. *)
Theorem unknown_tool_rejected (name : string) (args : JsValue) (s : Sys W) :
  (name ∉ td_name <$> listTools →
   callTool E name args s =
     (Throw (McpError MethodNotFound ("Unknown tool: " +:+ name)), s)) ∧
  (name ∈ td_name <$> listTools →
   ∀ message, (callTool E name args s).1 ≠ Throw (McpError MethodNotFound message)).
Proof.
  split; [apply callTool_unknown|].
  intros Hname message Hthrow.
  pose proof (callTool_known_outcome name args s Hname) as Hout.
  rewrite Hthrow in Hout. destruct Hout as (m & [Hm|Hm]); discriminate.
Qed.

(** X2: whatever the tool name, the arguments and the environment, a call
    ends in a text result without an error flag or in a thrown protocol
    error; the [isError] envelope of the outer catch is never produced. *)
Theorem callTool_protocol_outcome (name : string) (args : JsValue) (s : Sys W) :
  ProtocolOutcome (callTool E name args s).1 ∧
  ∀ result, (callTool E name args s).1 = Ok result → isError result = None.
Proof.
  assert (ProtocolOutcome (callTool E name args s).1) as Hout.
  { destruct (decide (name ∈ td_name <$> listTools)) as [Hname|Hname].
    - pose proof (callTool_known_outcome name args s Hname) as Hout.
      unfold ProtocolOutcome. destruct (callTool E name args s).1 as [result|e]; [done|].
      destruct Hout as (m & [->| ->]); eauto.
    - rewrite callTool_unknown by done. simpl. eauto. }
  split; [done|]. intros result Hresult. rewrite Hresult in Hout.
  by destruct Hout as [text ->].
Qed.

End Dispatcher.

Lemma unknown_tool_rejected_witness :
  callTool healthy "restart_eks_cluster" JsUndefined started =
    (Throw (McpError MethodNotFound "Unknown tool: restart_eks_cluster"), started).
Proof.
  apply (unknown_tool_rejected healthy "restart_eks_cluster" JsUndefined started).
  vm_compute. intros H. repeat (apply elem_of_cons in H as [H|H]; [discriminate H|]).
  by apply elem_of_nil in H.
Defined.

(** ** Validators and the advertised schemas *)

Section Schemas.
Context {W : Type} (E : External W).

Lemma typeofString_defined v : typeofString v = true → isUndefined v = false.
Proof. by destruct v. Qed.

Lemma stringArray_defined v : isArrayEvery typeofString v = true → isUndefined v = false.
Proof. by destruct v. Qed.

Lemma isUndefined_getProp_nonobject (args : JsValue) (k : string) :
  isPlainObject args = false → getProp args k = JsUndefined.
Proof. by destruct args. Qed.

Lemma plainObject_typeof (args : JsValue) :
  isPlainObject args = true → typeofObject args = true ∧ negb (isNull args) = true.
Proof. by destruct args. Qed.

(** Decide both sides property by property. *)
Ltac schema_cases args :=
  destruct (isPlainObject args) eqn:Hobject;
  [ destruct (plainObject_typeof args Hobject) as [Htypeof Hnull];
    rewrite Htypeof, Hnull; simpl;
    repeat match goal with
    | |- context [getProp args ?k] =>
        let v := fresh "v" in
        let Hs := fresh "Hs" in
        let Ha := fresh "Ha" in
        pose proof (typeofString_defined (getProp args k)) as Hs;
        pose proof (stringArray_defined (getProp args k)) as Ha;
        generalize dependent (getProp args k); intros v Hs Ha;
        destruct (isUndefined v);
        [ destruct (typeofString v); [by discriminate Hs|];
          destruct (isArrayEvery typeofString v); [by discriminate Ha|]
        | destruct (typeofString v); destruct (isArrayEvery typeofString v) ];
        clear Hs Ha; simpl; try reflexivity
    end
  | simpl; rewrite !(isUndefined_getProp_nonobject args) by done;
    simpl; by rewrite ?andb_false_r ].

Lemma status_validator_conforms (args : JsValue) :
  isValidClusterStatusArgs args =
    conformsTo {| properties :=
                    [ ("clusterName", StringProperty "Name of the EKS cluster");
                      ("region",
                       StringProperty
                         "AWS region (optional, uses default if not specified)") ];
                  required := ["clusterName"] |} args.
Proof. unfold isValidClusterStatusArgs, conformsTo, optionalString. schema_cases args. Qed.

Lemma deployments_validator_conforms (args : JsValue) :
  isValidListDeploymentsArgs args =
    conformsTo {| properties :=
                    [ ("clusterName", StringProperty "Name of the EKS cluster");
                      ("region",
                       StringProperty
                         "AWS region (optional, uses default if not specified)");
                      ("namespace",
                       StringProperty
                         "Kubernetes namespace (optional, defaults to all namespaces)") ];
                  required := ["clusterName"] |} args.
Proof. unfold isValidListDeploymentsArgs, conformsTo, optionalString. schema_cases args. Qed.

Lemma create_validator_conforms (args : JsValue) (d1 d2 d3 d4 d5 d6 d7 : string) :
  isValidCreateClusterArgs args =
    conformsTo {| properties :=
                    [ ("clusterName", StringProperty d1);
                      ("region", StringProperty d2);
                      ("kubernetesVersion", StringProperty d3);
                      ("roleArn", StringProperty d4);
                      ("subnetIds", StringArrayProperty d5);
                      ("securityGroupIds", StringArrayProperty d6);
                      ("publicAccessCidrs", StringArrayProperty d7) ];
                  required :=
                    ["clusterName"; "region"; "kubernetesVersion"; "roleArn"; "subnetIds"] |}
      args.
Proof.
  unfold isValidCreateClusterArgs, conformsTo, optionalStringArray.
  schema_cases args.
Qed.

(** X3: for every catalogue tool other than [list_eks_clusters], the
    arguments answered with [InvalidParams] ("Invalid arguments for" and the
    tool name, nothing dispatched) are exactly those that do not conform to
    the input schema the catalogue advertises for it; [list_eks_clusters]
    does not look at its arguments at all. *)
Theorem validation_matches_schema (tool : ToolDescriptor) (args : JsValue) (s : Sys W) :
  tool ∈ listTools →
  (td_name tool ≠ "list_eks_clusters" →
   (conformsTo (inputSchema tool) args = false ↔
    callTool E (td_name tool) args s =
      (Throw (McpError InvalidParams ("Invalid arguments for " +:+ td_name tool)), s))) ∧
  (td_name tool = "list_eks_clusters" →
   callTool E (td_name tool) args s = callTool E (td_name tool) JsUndefined s).
Proof.
  intros Htool. unfold listTools in Htool. rewrite !elem_of_cons in Htool.
  destruct Htool as [->|[->|[->|[->|[->|Htool]]]]];
    [| | | | |by apply elem_of_nil in Htool]; simpl;
    (split; [intros Hname|intros Hname; try discriminate Hname]).
  - done.
  - by rewrite !callTool_list.
  - rewrite <- status_validator_conforms. split.
    + intros Hinvalid. apply (callTool_invalid E _ false); [eauto 10|done].
    + destruct (isValidClusterStatusArgs args) eqn:Hvalid; [|done].
      rewrite callTool_status by done. unfold handleGetClusterStatus.
      rewrite handler_run. by destruct (getClusterStatus E _ _ s) as [[x|e] s'].
  - rewrite <- create_validator_conforms. split.
    + intros Hinvalid. apply (callTool_invalid E _ false); [eauto 10|done].
    + destruct (isValidCreateClusterArgs args) eqn:Hvalid; [|done].
      rewrite callTool_create by done. unfold handleCreateCluster.
      rewrite handler_run. by destruct (createCluster E _ s) as [[x|e] s'].
  - change (conformsTo _ args) with
      (conformsTo {| properties :=
                       [ ("clusterName", StringProperty "Name of the EKS cluster to delete");
                         ("region",
                          StringProperty
                            "AWS region (optional, uses default if not specified)") ];
                     required := ["clusterName"] |} args).
    assert (isValidDeleteClusterArgs args = conformsTo
              {| properties :=
                   [ ("clusterName", StringProperty "Name of the EKS cluster to delete");
                     ("region",
                      StringProperty
                        "AWS region (optional, uses default if not specified)") ];
                 required := ["clusterName"] |} args) as <-.
    { unfold isValidDeleteClusterArgs, conformsTo, optionalString.
      clear Hname. schema_cases args. }
    split.
    + intros Hinvalid. apply (callTool_invalid E _ false); [eauto 10|done].
    + destruct (isValidDeleteClusterArgs args) eqn:Hvalid; [|done].
      rewrite callTool_delete by done. unfold handleDeleteCluster.
      rewrite handler_run. by destruct (deleteCluster E _ _ s) as [[x|e] s'].
  - rewrite <- deployments_validator_conforms. split.
    + intros Hinvalid. apply (callTool_invalid E _ false); [eauto 10|done].
    + destruct (isValidListDeploymentsArgs args) eqn:Hvalid; [|done].
      rewrite callTool_deployments by done. unfold handleListDeployments.
      rewrite handler_run. by destruct (listClusterDeployments E _ _ _ s) as [[x|e] s'].
Qed.

End Schemas.

(** A namespace that is a number does not conform to the schema of
    [list_cluster_deployments]: the call is answered with [InvalidParams]. *)
Lemma validation_matches_schema_witness :
  callTool healthy "list_cluster_deployments"
    (object [("clusterName", JsString "alpha"); ("namespace", JsNumber 7)]) started =
  (Throw (McpError InvalidParams "Invalid arguments for list_cluster_deployments"), started).
Proof.
  pose (tool := {| td_name := "list_cluster_deployments";
                   td_description := "List Kubernetes pods and services in an EKS cluster";
                   inputSchema :=
                     {| properties :=
                          [ ("clusterName", StringProperty "Name of the EKS cluster");
                            ("region",
                             StringProperty
                               "AWS region (optional, uses default if not specified)");
                            ("namespace",
                             StringProperty
                               "Kubernetes namespace (optional, defaults to all namespaces)") ];
                        required := ["clusterName"] |} |}).
  assert (tool ∈ listTools) as Htool.
  { unfold listTools, tool. rewrite !elem_of_cons. tauto. }
  apply (proj1 (validation_matches_schema healthy tool
                  (object [("clusterName", JsString "alpha"); ("namespace", JsNumber 7)])
                  started Htool)).
  - discriminate.
  - vm_compute. reflexivity.
Defined.

(** ** Outcomes of the control-plane operations *)

Section Outcomes.
Context {W : Type} (E : External W).

Lemma region_step_different (r : string) (s : Sys W) :
  updateRegionIfDifferent r s = (Ok tt, (updateRegionIfDifferent r s).2).
Proof. by unfold updateRegionIfDifferent, bind, configuredRegion. Qed.

Lemma region_step_provided (region : option string) (s : Sys W) :
  updateRegionIfProvided region s = (Ok tt, (updateRegionIfProvided region s).2).
Proof.
  unfold updateRegionIfProvided, bind, configuredRegion.
  destruct region as [r|]; [|done]. by destruct (_ && _).
Qed.

Lemma createCluster_run (request : CreateClusterRequest) (s : Sys W) :
  let s1 := (updateRegionIfDifferent (region request) s).2 in
  let sent := EksSend (eksClient s1) (CreateClusterCommand (createClusterInput request)) in
  createCluster E request s =
    match eks_createCluster E (eksClient s1) (createClusterInput request) (world s1) with
    | (Ok (Some cluster), w') =>
        (Ok {| os_status := SUCCESS;
               os_message :=
                 "Cluster " +:+ clusterName request +:+ " creation initiated successfully";
               os_clusterDetails := Some (mapClusterToDetails cluster) |},
         record_call sent w' s1)
    | (Ok None, w') =>
        (Ok {| os_status := FAILURE;
               os_message :=
                 "Failed to create cluster: "
                 +:+ "Failed to create cluster - no cluster data returned";
               os_clusterDetails := None |},
         record_call sent w' s1)
    | (Throw e, w') =>
        (Ok {| os_status := FAILURE;
               os_message := "Failed to create cluster: " +:+ errorMessage e "Unknown error";
               os_clusterDetails := None |},
         record_call sent w' s1)
    end.
Proof.
  intros s1 sent. unfold createCluster, try_catch, bind.
  rewrite region_step_different. fold s1. unfold sendCreateCluster, external.
  by destruct (eks_createCluster _ _ _ _) as [[[cluster|]|e] w'].
Qed.

Lemma deleteCluster_run (name : string) (region : option string) (s : Sys W) :
  let s1 := (updateRegionIfProvided region s).2 in
  let sent := EksSend (eksClient s1) (DeleteClusterCommand name) in
  deleteCluster E name region s =
    match eks_deleteCluster E (eksClient s1) name (world s1) with
    | (Ok _, w') =>
        (Ok {| os_status := SUCCESS;
               os_message := "Cluster " +:+ name +:+ " deletion initiated successfully";
               os_clusterDetails := None |},
         record_call sent w' s1)
    | (Throw e, w') =>
        (Ok {| os_status := FAILURE;
               os_message := "Failed to delete cluster: " +:+ errorMessage e "Unknown error";
               os_clusterDetails := None |},
         record_call sent w' s1)
    end.
Proof.
  intros s1 sent. unfold deleteCluster, try_catch, bind.
  rewrite region_step_provided. fold s1. unfold sendDeleteCluster, external.
  by destruct (eks_deleteCluster _ _ _ _) as [[[]|e] w'].
Qed.

Lemma getClusterStatus_run (name : string) (region : option string) (s : Sys W) :
  let s1 := (updateRegionIfProvided region s).2 in
  let sent := EksSend (eksClient s1) (DescribeClusterCommand name) in
  getClusterStatus E name region s =
    match eks_describeCluster E (eksClient s1) name (world s1) with
    | (Ok (Some cluster), w') => (Ok (mapClusterToDetails cluster), record_call sent w' s1)
    | (Ok None, w') =>
        (Throw (JsError ("Failed to get cluster status: "
                         +:+ ("Cluster " +:+ name +:+ " not found"))),
         record_call sent w' s1)
    | (Throw e, w') =>
        (Throw (JsError ("Failed to get cluster status: "
                         +:+ errorMessage e "Unknown error")),
         record_call sent w' s1)
    end.
Proof.
  intros s1 sent. unfold getClusterStatus, try_catch, bind.
  rewrite region_step_provided. fold s1. unfold sendDescribeCluster, external.
  by destruct (eks_describeCluster _ _ _ _) as [[[cluster|]|e] w'].
Qed.

(** X4: [createCluster] reports [SUCCESS] exactly when the control plane
    returned a cluster, and only then carries cluster details; a response
    without cluster data is reported as a [FAILURE] like a refused request.
    [deleteCluster] reports [SUCCESS] exactly when its request was fulfilled
    and never carries cluster details. *)
Theorem mutating_operation_status
    (request : CreateClusterRequest) (name : string) (region' : option string) (s : Sys W) :
  let s1 := (updateRegionIfDifferent (region request) s).2 in
  let s2 := (updateRegionIfProvided region' s).2 in
  match (eks_createCluster E (eksClient s1) (createClusterInput request) (world s1)).1 with
  | Ok (Some cluster) =>
      (createCluster E request s).1 =
        Ok {| os_status := SUCCESS;
              os_message :=
                "Cluster " +:+ clusterName request +:+ " creation initiated successfully";
              os_clusterDetails := Some (mapClusterToDetails cluster) |}
  | Ok None =>
      (createCluster E request s).1 =
        Ok {| os_status := FAILURE;
              os_message :=
                "Failed to create cluster: Failed to create cluster - no cluster data returned";
              os_clusterDetails := None |}
  | Throw e =>
      (createCluster E request s).1 =
        Ok {| os_status := FAILURE;
              os_message := "Failed to create cluster: " +:+ errorMessage e "Unknown error";
              os_clusterDetails := None |}
  end ∧
  match (eks_deleteCluster E (eksClient s2) name (world s2)).1 with
  | Ok _ =>
      (deleteCluster E name region' s).1 =
        Ok {| os_status := SUCCESS;
              os_message := "Cluster " +:+ name +:+ " deletion initiated successfully";
              os_clusterDetails := None |}
  | Throw e =>
      (deleteCluster E name region' s).1 =
        Ok {| os_status := FAILURE;
              os_message := "Failed to delete cluster: " +:+ errorMessage e "Unknown error";
              os_clusterDetails := None |}
  end.
Proof.
  intros s1 s2. split.
  - rewrite createCluster_run. fold s1.
    by destruct (eks_createCluster _ _ _ _) as [[[cluster|]|e] w'].
  - rewrite deleteCluster_run. fold s2.
    by destruct (eks_deleteCluster _ _ _ _) as [[[]|e] w'].
Qed.

(** X5: [getClusterStatus] sends exactly one describe request.  When a
    non-empty region is named, the configured one included, the request goes
    through a new client configured with that region and no static
    credentials, which stays in place; otherwise through the current client.
    It returns the mapped details of the cluster in the response; a response
    without a cluster is thrown as
    "Failed to get cluster status: Cluster <name> not found". *)
Theorem getClusterStatus_outcomes (name : string) (region' : option string) (s : Sys W) :
  let client :=
    match region' with
    | Some r =>
        if decide (r = "") then eksClient s
        else {| cfg_region := r; cfg_credentials := None |}
    | None => eksClient s
    end in
  calls (getClusterStatus E name region' s).2 =
    calls s ++ [EksSend client (DescribeClusterCommand name)] ∧
  eksClient (getClusterStatus E name region' s).2 = client ∧
  match (eks_describeCluster E client name (world s)).1 with
  | Ok (Some cluster) =>
      (getClusterStatus E name region' s).1 = Ok (mapClusterToDetails cluster)
  | Ok None =>
      (getClusterStatus E name region' s).1 =
        Throw (JsError ("Failed to get cluster status: Cluster " +:+ name +:+ " not found"))
  | Throw e =>
      (getClusterStatus E name region' s).1 =
        Throw (JsError ("Failed to get cluster status: " +:+ errorMessage e "Unknown error"))
  end.
Proof.
  intros client. rewrite getClusterStatus_run.
  assert ((updateRegionIfProvided region' s).2 =
          {| eksClient := client; stsClient := stsClient s; kubeconfigs := kubeconfigs s;
             world := world s; calls := calls s |}) as ->.
  { unfold client, updateRegionIfProvided, bind, configuredRegion. simpl.
    destruct region' as [r|]; [|by destruct s]. simpl.
    case_decide.
    - rewrite bool_decide_eq_false_2 by (by intros []). by destruct s.
    - by rewrite bool_decide_eq_true_2. }
  simpl.
  by destruct (eks_describeCluster _ _ _ _) as [[[cluster|]|e] w'].
Qed.

End Outcomes.

(** ** What a tool call answers *)

Section ToolAnswers.
Context {W : Type} (E : External W).

(** X6: with valid arguments the two mutating tools always answer with a
    text result, the serialised [OperationStatus]; a refusal by the control
    plane is reported inside that status and never as a protocol error. *)
Theorem mutating_tools_always_answer (args : JsValue) (s : Sys W) :
  (isValidCreateClusterArgs args = true →
   ∃ status,
     (createCluster E (asCreateClusterRequest args) s).1 = Ok status ∧
     (callTool E "create_eks_cluster" args s).1 =
       Ok (textResult (JSON_stringify E (SStatus status)))) ∧
  (isValidDeleteClusterArgs args = true →
   ∃ status,
     (deleteCluster E (stringProp args "clusterName") (optStringProp args "region") s).1
       = Ok status ∧
     (callTool E "delete_eks_cluster" args s).1 =
       Ok (textResult (JSON_stringify E (SStatus status)))).
Proof.
  split; intros Hvalid.
  - destruct (createCluster_returns E (asCreateClusterRequest args) s)
      as (status & s' & Hrun).
    exists status. rewrite callTool_create by done.
    unfold handleCreateCluster. rewrite handler_run. by rewrite Hrun.
  - destruct (deleteCluster_returns E (stringProp args "clusterName")
                (optStringProp args "region") s) as (status & s' & Hrun).
    exists status. rewrite callTool_delete by done.
    unfold handleDeleteCluster. rewrite handler_run. by rewrite Hrun.
Qed.

(** X7: when the control plane refuses the request of a read tool, the
    call is answered with [InternalError], and the message carries the prefix
    of the handler followed by the prefix of the operation:
    "Failed to list clusters: Failed to list EKS clusters: ...",
    "Failed to get cluster status: Failed to get cluster status: ...",
    "Failed to list deployments: Failed to list cluster deployments: Failed
    to get cluster status: ...". *)
Theorem read_tools_wrap_failures (args : JsValue) (s : Sys W) :
  (∀ e w',
     eks_listClusters E (eksClient s) (world s) = (Throw e, w') →
     (callTool E "list_eks_clusters" args s).1 =
       Throw (McpError InternalError
                ("Failed to list clusters: Failed to list EKS clusters: "
                 +:+ errorMessage e "Unknown error"))) ∧
  (∀ e w',
     let s1 := (updateRegionIfProvided (optStringProp args "region") s).2 in
     eks_describeCluster E (eksClient s1) (stringProp args "clusterName") (world s1)
       = (Throw e, w') →
     (isValidClusterStatusArgs args = true →
      (callTool E "get_eks_cluster_status" args s).1 =
        Throw (McpError InternalError
                 ("Failed to get cluster status: Failed to get cluster status: "
                  +:+ errorMessage e "Unknown error"))) ∧
     (isValidListDeploymentsArgs args = true →
      (callTool E "list_cluster_deployments" args s).1 =
        Throw (McpError InternalError
                 ("Failed to list deployments: Failed to list cluster deployments: "
                  +:+ ("Failed to get cluster status: "
                       +:+ errorMessage e "Unknown error"))))).
Proof.
  split.
  - intros e w' Hsend. rewrite callTool_list. unfold handleListClusters.
    rewrite handler_run.
    unfold listClusters, try_catch, bind, sendListClusters, external.
    by rewrite Hsend.
  - intros e w' s1 Hsend. split; intros Hvalid.
    + rewrite callTool_status by done. unfold handleGetClusterStatus.
      rewrite handler_run, getClusterStatus_run. fold s1. by rewrite Hsend.
    + rewrite callTool_deployments by done. unfold handleListDeployments.
      rewrite handler_run.
      unfold listClusterDeployments, try_catch, fetchClusterObjects.
      unfold bind at 1. unfold bind at 1.
      rewrite getClusterStatus_run. fold s1. by rewrite Hsend.
Qed.

End ToolAnswers.

(** On a cloud that refuses everything, creating a cluster still answers
    with a text result. *)
Lemma mutating_tools_always_answer_witness :
  (callTool unreachable "create_eks_cluster" (createArgs [JsString "subnet-1"]) started).1 =
    Ok (textResult "{}").
Proof.
  destruct (mutating_tools_always_answer unreachable (createArgs [JsString "subnet-1"])
              started) as [Hcreate _].
  destruct (Hcreate eq_refl) as (status & _ & Hcall). exact Hcall.
Defined.

(** On a cloud that refuses everything, asking for a cluster status is
    answered with the doubly prefixed internal error. *)
Lemma read_tools_wrap_failures_witness :
  (callTool unreachable "get_eks_cluster_status"
     (object [("clusterName", JsString "alpha")]) started).1 =
    Throw (McpError InternalError
             "Failed to get cluster status: Failed to get cluster status: AccessDenied").
Proof.
  destruct (read_tools_wrap_failures unreachable
              (object [("clusterName", JsString "alpha")]) started) as [_ Hstatus].
  destruct (Hstatus accessDenied (world started) eq_refl) as [Hcall _].
  exact (Hcall eq_refl).
Defined.

(** ** Requests sent while listing clusters *)

Section ListRequests.
Context {W : Type} (E : External W).

Lemma mapM_describeForList_calls (names : list string) (s : Sys W) :
  calls (mapM (describeForList E) names s).2 =
    calls s ++ ((fun name => EksSend (eksClient s) (DescribeClusterCommand name)) <$> names).
Proof.
  revert s. induction names as [|name rest IH]; intros s; simpl.
  - by rewrite app_nil_r.
  - unfold bind at 1. rewrite describeForList_run.
    set (s1 := record_call _ _ s).
    specialize (IH s1). unfold bind.
    destruct (mapM (describeForList E) rest s1) as [[infos|e] s2]; simpl in *;
      rewrite IH; unfold s1; simpl; by rewrite <- app_assoc.
Qed.

(** X8: [listClusters] sends the enumeration request once and then one
    describe request per listed name, in the order of the list, all through
    the same client, and nothing else; when the enumeration is refused or
    carries no list, no describe request is sent, and the missing list gives
    the empty result. *)
Theorem listClusters_requests (s : Sys W) :
  let cfg := eksClient s in
  match (eks_listClusters E cfg (world s)).1 with
  | Ok (Some names) =>
      calls (listClusters E s).2 =
        calls s ++ EksSend cfg ListClustersCommand ::
                   ((fun name => EksSend cfg (DescribeClusterCommand name)) <$> names)
  | Ok None =>
      (listClusters E s).1 = Ok [] ∧
      calls (listClusters E s).2 = calls s ++ [EksSend cfg ListClustersCommand]
  | Throw _ =>
      calls (listClusters E s).2 = calls s ++ [EksSend cfg ListClustersCommand]
  end.
Proof.
  intros cfg. unfold listClusters, try_catch, bind, sendListClusters, external.
  fold cfg. destruct (eks_listClusters E cfg (world s)) as [[[names|]|e] w1]; simpl;
    [|done|done].
  set (s1 := record_call _ w1 s).
  pose proof (mapM_describeForList_calls names s1) as Hcalls.
  destruct (mapM_describeForList E names s1) as [s' Hmap].
  rewrite Hmap in *. simpl in *. rewrite Hcalls. unfold s1. simpl.
  by rewrite <- app_assoc.
Qed.

End ListRequests.

Example listClusters_requests_sample :
  calls (listClusters healthy started).2 =
    [ EksSend (eksClient started) ListClustersCommand;
      EksSend (eksClient started) (DescribeClusterCommand "alpha");
      EksSend (eksClient started) (DescribeClusterCommand "beta");
      EksSend (eksClient started) (DescribeClusterCommand "gamma") ].
Proof. vm_compute. reflexivity. Qed.

(** ** State that calls leave alone *)

Section Frames.
Context {W : Type} (E : External W).
Context (R : Sys W → Sys W → Prop).
Context (R_refl : ∀ s, R s s) (R_trans : ∀ a b c, R a b → R b c → R a c).

Lemma Steps_read {A} (r : Sys W → Result A) : Steps R (fun s : Sys W => (r s, s)).
Proof. intros s. apply R_refl. Qed.

Lemma Steps_bind {A B} (m : M W A) (k : A → M W B) :
  Steps R m → (∀ a, Steps R (k a)) → Steps R (bind m k).
Proof.
  intros Hm Hk s. unfold bind. specialize (Hm s).
  destruct (m s) as [[a|e] s1]; simpl in *; [|done].
  eapply R_trans; [exact Hm|apply Hk].
Qed.

Lemma Steps_try_catch {A} (body : M W A) (handler : Thrown → M W A) :
  Steps R body → (∀ e, Steps R (handler e)) → Steps R (try_catch body handler).
Proof.
  intros Hm Hk s. unfold try_catch. specialize (Hm s).
  destruct (body s) as [[a|e] s1]; simpl in *; [done|].
  eapply R_trans; [exact Hm|apply Hk].
Qed.

Lemma Steps_mapM {A B} (f : A → M W B) (xs : list A) :
  (∀ x, Steps R (f x)) → Steps R (mapM f xs).
Proof.
  intros Hf. induction xs as [|x rest IH]; simpl.
  - apply (Steps_read (fun _ => Ok [])).
  - apply Steps_bind; [apply Hf|]. intros y.
    apply Steps_bind; [apply IH|]. intros ys. apply (Steps_read (fun _ => Ok _)).
Qed.

(** What the primitive steps have to respect. *)
Context (R_call : ∀ s c w, R s (record_call c w s)).
Context (R_client : ∀ s r, R s (set_eksClient (newRegionClient r) s)).

Lemma Steps_external {A} (c : Sys W → Call) (oracle : Sys W → W → Result A * W) :
  Steps R (fun s => external (c s) (oracle s) s).
Proof.
  intros s. unfold external. destruct (oracle s (world s)) as [r w']. apply R_call.
Qed.

Lemma Steps_updateRegionIfProvided (region : option string) :
  Steps R (updateRegionIfProvided (W := W) region).
Proof.
  intros s. unfold updateRegionIfProvided, bind, configuredRegion. simpl.
  destruct region as [r|]; [|apply R_refl].
  destruct (_ && _); [apply R_client|apply R_refl].
Qed.

Lemma Steps_updateRegionIfDifferent (region : string) :
  Steps R (updateRegionIfDifferent (W := W) region).
Proof.
  intros s. unfold updateRegionIfDifferent, bind, configuredRegion. simpl.
  apply R_client.
Qed.

Lemma Steps_getClusterStatus (name : string) (region : option string) :
  Steps R (getClusterStatus E name region).
Proof.
  apply Steps_try_catch; [|intros e; apply (Steps_read (fun _ => Throw _))].
  apply Steps_bind; [apply Steps_updateRegionIfProvided|]. intros _.
  apply Steps_bind.
  { apply (Steps_external (fun s => EksSend (eksClient s) (DescribeClusterCommand name))
             (fun s => eks_describeCluster E (eksClient s) name)). }
  intros [cluster|]; [apply (Steps_read (fun _ => Ok _))|apply (Steps_read (fun _ => Throw _))].
Qed.

Lemma Steps_deleteCluster (name : string) (region : option string) :
  Steps R (deleteCluster E name region).
Proof.
  apply Steps_try_catch; [|intros e; apply (Steps_read (fun _ => Ok _))].
  apply Steps_bind; [apply Steps_updateRegionIfProvided|]. intros _.
  apply Steps_bind; [|intros _; apply (Steps_read (fun _ => Ok _))].
  apply (Steps_external (fun s => EksSend (eksClient s) (DeleteClusterCommand name))
           (fun s => eks_deleteCluster E (eksClient s) name)).
Qed.

Lemma Steps_createCluster (request : CreateClusterRequest) :
  Steps R (createCluster E request).
Proof.
  apply Steps_try_catch; [|intros e; apply (Steps_read (fun _ => Ok _))].
  apply Steps_bind; [apply Steps_updateRegionIfDifferent|]. intros _.
  apply Steps_bind.
  { apply (Steps_external (fun s => EksSend (eksClient s) (CreateClusterCommand _))
             (fun s => eks_createCluster E (eksClient s) _)). }
  intros [cluster|]; [apply (Steps_read (fun _ => Ok _))|apply (Steps_read (fun _ => Throw _))].
Qed.

Lemma Steps_listClusters : Steps R (listClusters E).
Proof.
  apply Steps_try_catch; [|intros e; apply (Steps_read (fun _ => Throw _))].
  apply Steps_bind.
  { apply (Steps_external (fun s => EksSend (eksClient s) ListClustersCommand)
             (fun s => eks_listClusters E (eksClient s))). }
  intros [names|]; [|apply (Steps_read (fun _ => Ok _))].
  apply Steps_mapM. intros name. apply Steps_try_catch.
  - apply Steps_bind.
    { apply (Steps_external (fun s => EksSend (eksClient s) (DescribeClusterCommand name))
               (fun s => eks_describeCluster E (eksClient s) name)). }
    intros [cluster|]; [|apply (Steps_read (fun _ => Throw _))].
    apply Steps_bind; [apply (Steps_read (fun s => Ok (ProviderOf (cfg_region (eksClient s)))))|].
    intros r. apply (Steps_read (fun _ => Ok _)).
  - intros e.
    apply Steps_bind; [apply (Steps_read (fun s => Ok (ProviderOf (cfg_region (eksClient s)))))|].
    intros r. apply (Steps_read (fun _ => Ok _)).
Qed.

Lemma Steps_now : Steps R (now E).
Proof.
  apply (Steps_external (fun _ => ClockRead)
           (fun _ w => let '(t, w') := clock E w in (Ok t, w'))).
Qed.

Lemma Steps_calculateAge (timestamp : option string) : Steps R (calculateAge E timestamp).
Proof.
  unfold calculateAge. destruct timestamp as [ts|]; [|apply (Steps_read (fun _ => Ok _))].
  case_decide; [apply (Steps_read (fun _ => Ok _))|].
  apply Steps_bind; [apply Steps_now|]. intros current.
  destruct (Date_parse E ts); apply (Steps_read (fun _ => Ok _)).
Qed.

Lemma Steps_projectDeployments (target : option string)
    (items : list V1Pod * list V1Service) :
  Steps R (projectDeployments E target items).
Proof.
  apply Steps_bind.
  { apply Steps_mapM. intros pod.
    apply Steps_bind; [apply Steps_calculateAge|].
    intros age. apply (Steps_read (fun _ => Ok _)). }
  intros podInfos. apply Steps_bind; [|intros; apply (Steps_read (fun _ => Ok _))].
  apply Steps_mapM. intros service.
  apply Steps_bind; [apply (Steps_read (fun _ => getExternalIP service))|].
  intros ip. apply Steps_bind; [apply Steps_calculateAge|].
  intros age. apply (Steps_read (fun _ => Ok _)).
Qed.

Lemma Steps_getCallerIdentity : Steps R (getCallerIdentity E).
Proof.
  apply Steps_try_catch; [|intros e; apply (Steps_read (fun _ => Throw _))].
  apply (Steps_external (fun s => StsGetCallerIdentity (stsClient s))
           (fun s => sts_getCallerIdentity E (stsClient s))).
Qed.

Lemma Steps_handler {A} (m : M W A) (render : A → string) (prefix : string) :
  Steps R m →
  Steps R (try_catch (x <- m ;; ret (textResult (render x)))
             (fun error =>
                throw (McpError InternalError
                         (prefix +:+ errorMessage error "Unknown error")))).
Proof.
  intros Hm. apply Steps_try_catch; [|intros e; apply (Steps_read (fun _ => Throw _))].
  apply Steps_bind; [exact Hm|]. intros x. apply (Steps_read (fun _ => Ok _)).
Qed.

(** The dispatcher over a stepping inspection operation. *)
Lemma Steps_callTool (name : string) (args : JsValue) :
  (∀ clusterName region namespace,
     Steps R (listClusterDeployments E clusterName region namespace)) →
  Steps R (callTool E name args).
Proof.
  intros Hdeployments. unfold callTool.
  apply Steps_try_catch.
  - repeat case_decide.
    + apply (Steps_handler (listClusters E) (fun x => JSON_stringify E (SClusters x))).
      apply Steps_listClusters.
    + destruct (negb _); [apply (Steps_read (fun _ => Throw _))|].
      apply (Steps_handler (getClusterStatus E _ _) (fun x => JSON_stringify E (SDetails x))).
      apply Steps_getClusterStatus.
    + destruct (negb _); [apply (Steps_read (fun _ => Throw _))|].
      apply (Steps_handler (createCluster E _) (fun x => JSON_stringify E (SStatus x))).
      apply Steps_createCluster.
    + destruct (negb _); [apply (Steps_read (fun _ => Throw _))|].
      apply (Steps_handler (deleteCluster E _ _) (fun x => JSON_stringify E (SStatus x))).
      apply Steps_deleteCluster.
    + destruct (negb _); [apply (Steps_read (fun _ => Throw _))|].
      apply (Steps_handler (listClusterDeployments E _ _ _)
               (fun x => JSON_stringify E (SDeployments x))).
      apply Hdeployments.
    + apply (Steps_read (fun _ => Throw _)).
  - intros e. destruct (isMcpError e);
      [apply (Steps_read (fun _ => Throw _))|apply (Steps_read (fun _ => Ok _))].
Qed.

(** Where touching the sessions is a step too, so is an inspection. *)
Lemma Steps_listClusterDeployments
    (R_kube : ∀ s k, R s (set_kubeconfigs k s))
    (clusterName : string) (region namespace : option string) :
  Steps R (listClusterDeployments E clusterName region namespace).
Proof.
  apply Steps_try_catch; [|intros e; apply (Steps_read (fun _ => Throw _))].
  apply Steps_bind; [|intros items; apply Steps_projectDeployments].
  apply Steps_bind; [apply Steps_getClusterStatus|]. intros details.
  apply Steps_bind; [intros s; apply R_kube|]. intros kc.
  apply Steps_bind.
  { apply Steps_try_catch; [|intros e; apply (Steps_read (fun _ => Throw _))].
    apply Steps_bind; [apply Steps_getCallerIdentity|]. intros identity.
    apply Steps_bind.
    { apply Steps_bind; [apply Steps_now|]. intros t. apply (Steps_read (fun _ => Ok _)). }
    intros token s. apply R_kube. }
  intros _. apply Steps_bind.
  { apply (Steps_read (fun s => Ok (default emptyKubeConfig (kubeconfigs s !! kc)))). }
  intros api. apply Steps_bind.
  { apply (Steps_external (fun _ => K8sListPods api)
             (fun _ => k8s_listPodForAllNamespaces E api)). }
  intros podItems. apply Steps_bind.
  { apply (Steps_external (fun _ => K8sListServices api)
             (fun _ => k8s_listServiceForAllNamespaces E api)). }
  intros serviceItems. apply (Steps_read (fun _ => Ok _)).
Qed.

End Frames.

Section Invariants.
Context {W : Type} (E : External W).

(** X9: no tool call reconfigures the identity-service client: whatever
    regions the calls name, identity checks keep going to the region, and
    with the credentials, the server was constructed with. *)
Theorem identity_client_never_replaced (name : string) (args : JsValue) (s : Sys W) :
  stsClient (callTool E name args s).2 = stsClient s.
Proof.
  apply (Steps_callTool E (fun a b => stsClient b = stsClient a)); try done.
  - intros a b c Hab Hbc. by rewrite Hbc.
  - intros clusterName region namespace.
    apply Steps_listClusterDeployments; try done.
    intros a b c Hab Hbc. by rewrite Hbc.
Qed.

(** X10: no tool call installs credentials: after a call the control-plane
    client is the one in place before it, or a client without static
    credentials. *)
Theorem client_credentials_never_installed (name : string) (args : JsValue) (s : Sys W) :
  eksClient (callTool E name args s).2 = eksClient s ∨
  cfg_credentials (eksClient (callTool E name args s).2) = None.
Proof.
  assert (∀ a b c : Sys W,
            eksClient b = eksClient a ∨ cfg_credentials (eksClient b) = None →
            eksClient c = eksClient b ∨ cfg_credentials (eksClient c) = None →
            eksClient c = eksClient a ∨ cfg_credentials (eksClient c) = None) as Htrans.
  { intros a b c Hab [Hbc|Hbc]; [rewrite Hbc; exact Hab|by right]. }
  apply (Steps_callTool E
           (fun a b => eksClient b = eksClient a ∨ cfg_credentials (eksClient b) = None));
    try (intros; by left); try (intros; by right); try exact Htrans.
  intros clusterName region namespace.
  apply Steps_listClusterDeployments;
    try (intros; by left); try (intros; by right); exact Htrans.
Qed.

End Invariants.

(** ** Sessions *)

Section Sessions.
Context {W : Type} (E : External W).

Lemma configureEKSAuth_run
    (kc : nat) (details : ClusterDetails) (region : string) (s : Sys W) :
  let check := StsGetCallerIdentity (stsClient s) in
  configureEKSAuth E kc details region s =
    match sts_getCallerIdentity E (stsClient s) (world s) with
    | (Throw e, w') =>
        (Throw (JsError ("Failed to configure EKS authentication: "
                         +:+ ("Failed to get caller identity: "
                              +:+ errorMessage e "Unknown error"))),
         record_call check w' s)
    | (Ok _, w') =>
        (Ok tt,
         set_kubeconfigs
           (<[kc := sessionConfig E details region (clock E w').1]> (kubeconfigs s))
           (record_call ClockRead (clock E w').2 (record_call check w' s)))
    end.
Proof.
  unfold configureEKSAuth, try_catch, bind, getCallerIdentity, try_catch, external.
  destruct (sts_getCallerIdentity E (stsClient s) (world s)) as [[identity|e] w'];
    simpl; [|done].
  unfold generateEKSToken, bind, now, external. simpl.
  by destruct (clock E w') as [t w''].
Qed.

Lemma getClusterStatus_sessions (name : string) (region : option string) (s : Sys W) :
  kubeconfigs (getClusterStatus E name region s).2 = kubeconfigs s ∧
  stsClient (getClusterStatus E name region s).2 = stsClient s.
Proof.
  split.
  - by apply (Steps_getClusterStatus E (fun a b => kubeconfigs b = kubeconfigs a));
      [|intros a b c Hab Hbc; rewrite Hbc| |].
  - by apply (Steps_getClusterStatus E (fun a b => stsClient b = stsClient a));
      [|intros a b c Hab Hbc; rewrite Hbc| |].
Qed.

Lemma fresh_session_loaded (K : list KubeConfig) (session : KubeConfig) :
  <[length K := session]> (K ++ [emptyKubeConfig]) = K ++ [session] ∧
  (K ++ [session]) !! length K = Some session.
Proof.
  split.
  - rewrite insert_app_r_alt by lia. by rewrite Nat.sub_diag.
  - rewrite lookup_app_r by lia. by rewrite Nat.sub_diag.
Qed.

(** Everything [fetchClusterObjects] does once the cluster is described and
    the identity check has succeeded. *)
Lemma fetchClusterObjects_run
    (name : string) (region : option string) (details : ClusterDetails)
    (identity : CallerIdentity) (s s1 : Sys W) (w2 : W) :
  getClusterStatus E name region s = (Ok details, s1) →
  sts_getCallerIdentity E (stsClient s1) (world s1) = (Ok identity, w2) →
  let session :=
    sessionConfig E details (orString region "us-east-1") (clock E w2).1 in
  let s3 :=
    set_kubeconfigs (kubeconfigs s1 ++ [session])
      (record_call ClockRead (clock E w2).2
         (record_call (StsGetCallerIdentity (stsClient s1)) w2 s1)) in
  fetchClusterObjects E name region s =
    match k8s_listPodForAllNamespaces E session (world s3) with
    | (Throw e, w4) => (Throw e, record_call (K8sListPods session) w4 s3)
    | (Ok podItems, w4) =>
        let s4 := record_call (K8sListPods session) w4 s3 in
        match k8s_listServiceForAllNamespaces E session w4 with
        | (Throw e, w5) => (Throw e, record_call (K8sListServices session) w5 s4)
        | (Ok serviceItems, w5) =>
            (Ok (podItems, serviceItems), record_call (K8sListServices session) w5 s4)
        end
    end.
Proof.
  intros Hstatus Hsts session s3.
  unfold fetchClusterObjects. unfold bind at 1. rewrite Hstatus.
  unfold bind at 1. unfold newKubeConfig at 1.
  unfold bind at 1. rewrite configureEKSAuth_run. simpl. rewrite Hsts.
  destruct (fresh_session_loaded (kubeconfigs s1) session) as [Hinsert Hlookup].
  fold session. rewrite Hinsert.
  unfold bind at 1. unfold makeApiClient at 1. simpl. rewrite Hlookup. simpl.
  unfold bind, listPodForAllNamespaces, listServiceForAllNamespaces, external. simpl.
  fold s3.
  destruct (k8s_listPodForAllNamespaces E session (clock E w2).2) as [[podItems|e] w4];
    simpl; [|done].
  by destruct (k8s_listServiceForAllNamespaces E session w4) as [[serviceItems|e] w5].
Qed.

(** X11: once the cluster is described and the identity check has
    succeeded, the pods request, and after it the services request, are sent
    with one session: the endpoint of the described cluster, no certificate
    authority data, and a token built from the cluster name, the time, and
    the region argument, or "us-east-1" when that is absent or empty,
    whatever region the control-plane client is configured with. *)
Theorem inspection_session
    (name : string) (region namespace : option string) (details : ClusterDetails)
    (identity : CallerIdentity) (s s1 : Sys W) (w2 : W) :
  getClusterStatus E name region s = (Ok details, s1) →
  sts_getCallerIdentity E (stsClient s1) (world s1) = (Ok identity, w2) →
  let session :=
    sessionConfig E details (orString region "us-east-1") (clock E w2).1 in
  let prefix :=
    calls s1 ++ [StsGetCallerIdentity (stsClient s1); ClockRead; K8sListPods session] in
  kc_server <$> clusters session = [cd_endpoint details] ∧
  kc_certificateAuthorityData <$> clusters session = [None] ∧
  match (k8s_listPodForAllNamespaces E session (clock E w2).2).1 with
  | Throw _ => calls (fetchClusterObjects E name region s).2 = prefix
  | Ok _ =>
      calls (fetchClusterObjects E name region s).2 = prefix ++ [K8sListServices session]
  end.
Proof.
  intros Hstatus Hsts session prefix. split; [done|]. split; [done|].
  rewrite (fetchClusterObjects_run _ _ _ _ _ _ _ Hstatus Hsts). fold session. simpl.
  unfold prefix.
  destruct (k8s_listPodForAllNamespaces E session (clock E w2).2) as [[podItems|e] w4];
    simpl.
  - destruct (k8s_listServiceForAllNamespaces E session w4) as [[serviceItems|e] w5];
      simpl; by rewrite <- !app_assoc.
  - by rewrite <- !app_assoc.
Qed.

End Sessions.

(** After a switch to eu-west-1, an inspection that names no region still
    builds its session for us-east-1. *)
Lemma inspection_session_witness :
  let s := (deleteCluster healthy "old" (Some "eu-west-1") started).2 in
  cfg_region (eksClient s) = "eu-west-1" ∧
  calls (fetchClusterObjects healthy "alpha" None s).2 =
    calls (getClusterStatus healthy "alpha" None s).2 ++
    [ StsGetCallerIdentity (stsClient s); ClockRead;
      K8sListPods (sessionConfig healthy (mapClusterToDetails (sampleCluster "alpha"))
                     "us-east-1" 1700000600000);
      K8sListServices (sessionConfig healthy (mapClusterToDetails (sampleCluster "alpha"))
                         "us-east-1" 1700000600000) ].
Proof.
  intros s. split; [reflexivity|].
  pose proof (inspection_session healthy "alpha" None None
                (mapClusterToDetails (sampleCluster "alpha"))
                {| id_account := Some "000000000000"; id_arn := None; id_userId := None |}
                s (getClusterStatus healthy "alpha" None s).2 1700000600000
                eq_refl eq_refl) as (_ & _ & Hcalls).
  exact Hcalls.
Defined.

Section SessionHeap.
Context {W : Type} (E : External W).

Lemma fetchClusterObjects_sessions (name : string) (region : option string) (s : Sys W) :
  ∃ new, kubeconfigs (fetchClusterObjects E name region s).2 = kubeconfigs s ++ new ∧
         (length new ≤ 1)%nat.
Proof.
  destruct (getClusterStatus E name region s) as [[details|e] s1] eqn:Hstatus.
  - pose proof (getClusterStatus_sessions E name region s) as [Hk _].
    rewrite Hstatus in Hk. simpl in Hk.
    destruct (sts_getCallerIdentity E (stsClient s1) (world s1)) as [[identity|e] w2]
      eqn:Hsts.
    + rewrite (fetchClusterObjects_run E _ _ _ _ _ _ _ Hstatus Hsts).
      eexists [_]. split; [|simpl; lia]. rewrite <- Hk.
      destruct (k8s_listPodForAllNamespaces E _ _) as [[podItems|e] w4]; simpl; [|done].
      by destruct (k8s_listServiceForAllNamespaces E _ _) as [[serviceItems|e] w5].
    + exists [emptyKubeConfig]. split; [|simpl; lia]. rewrite <- Hk.
      unfold fetchClusterObjects. unfold bind at 1. rewrite Hstatus.
      unfold bind at 1. unfold newKubeConfig at 1.
      unfold bind at 1. rewrite configureEKSAuth_run. simpl. by rewrite Hsts.
  - exists []. split; [|simpl; lia]. rewrite app_nil_r.
    pose proof (getClusterStatus_sessions E name region s) as [Hk _].
    unfold fetchClusterObjects. unfold bind at 1. by rewrite Hstatus in *.
Qed.

Lemma listClusterDeployments_sessions
    (name : string) (region namespace : option string) (s : Sys W) :
  ∃ new, kubeconfigs (listClusterDeployments E name region namespace s).2
           = kubeconfigs s ++ new ∧
         (length new ≤ 1)%nat.
Proof.
  destruct (fetchClusterObjects_sessions name region s) as (new & Hnew & Hlen).
  exists new. split; [|done]. rewrite <- Hnew.
  unfold listClusterDeployments, try_catch. unfold bind at 1.
  destruct (fetchClusterObjects E name region s) as [[items|e] sf]; simpl; [|done].
  pose proof (Steps_projectDeployments E (fun a b => kubeconfigs b = kubeconfigs a)
                (fun _ => eq_refl)
                (fun a b c Hab Hbc => eq_trans Hbc Hab)
                (fun _ _ _ => eq_refl)
                (targetNamespace namespace) items sf) as Hproject.
  simpl in Hproject.
  by destruct (projectDeployments E (targetNamespace namespace) items sf) as [[d|e] sp].
Qed.

(** X12: an inspection call allocates at most one session and no tool call
    ever modifies or drops a session allocated before it: the sessions in
    place before a call are a prefix of those in place after it. *)
Theorem sessions_never_reused (name : string) (args : JsValue) (s : Sys W) :
  kubeconfigs s `prefix_of` kubeconfigs (callTool E name args s).2 ∧
  (∀ clusterName region namespace,
     ∃ new,
       kubeconfigs (listClusterDeployments E clusterName region namespace s).2
         = kubeconfigs s ++ new ∧
       (length new ≤ 1)%nat) ∧
  (name ≠ "list_cluster_deployments" →
   kubeconfigs (callTool E name args s).2 = kubeconfigs s).
Proof.
  split; [|split].
  - apply (Steps_callTool E (fun a b => kubeconfigs a `prefix_of` kubeconfigs b));
      try done.
    + intros a b c Hab Hbc. by etrans.
    + intros clusterName region namespace s0.
      destruct (listClusterDeployments_sessions clusterName region namespace s0)
        as (new & -> & _).
      by apply prefix_app_r.
  - intros. apply listClusterDeployments_sessions.
  - intros Hname. unfold callTool, try_catch.
    assert (∀ (A : Type) (m : M W A) (render : A → string) (prefix : string),
              (∀ s0, kubeconfigs (m s0).2 = kubeconfigs s0) →
              kubeconfigs
                (match
                   try_catch (x <- m ;; ret (textResult (render x)))
                     (fun error =>
                        throw (McpError InternalError
                                 (prefix +:+ errorMessage error "Unknown error"))) s
                 with
                 | (Ok a, s') => (Ok a, s')
                 | (Throw e, s') =>
                     (if isMcpError e then throw e
                      else ret {| content :=
                                    [ {| tc_type := "text";
                                         tc_text := "Error: " +:+
                                           errorMessage e "Unknown error occurred" |} ];
                                  isError := Some true |}) s'
                 end).2 = kubeconfigs s) as Hhandler.
    { intros A m render prefix Hm. rewrite handler_run. specialize (Hm s).
      by destruct (m s) as [[x|e] s']. }
    repeat case_decide; try done.
    + apply (Hhandler _ (listClusters E) (fun x => JSON_stringify E (SClusters x))).
      intros s0.
      by apply (Steps_listClusters E (fun a b => kubeconfigs b = kubeconfigs a));
        [|intros a b c Hab Hbc; rewrite Hbc|].
    + destruct (negb _); [done|].
      apply (Hhandler _ (getClusterStatus E _ _) (fun x => JSON_stringify E (SDetails x))).
      intros s0. apply getClusterStatus_sessions.
    + destruct (negb _); [done|].
      apply (Hhandler _ (createCluster E _) (fun x => JSON_stringify E (SStatus x))).
      intros s0.
      by apply (Steps_createCluster E (fun a b => kubeconfigs b = kubeconfigs a));
        [|intros a b c Hab Hbc; rewrite Hbc| |].
    + destruct (negb _); [done|].
      apply (Hhandler _ (deleteCluster E _ _) (fun x => JSON_stringify E (SStatus x))).
      intros s0.
      by apply (Steps_deleteCluster E (fun a b => kubeconfigs b = kubeconfigs a));
        [|intros a b c Hab Hbc; rewrite Hbc| |].
Qed.

End SessionHeap.

Lemma sessions_never_reused_witness :
  kubeconfigs (callTool healthy "delete_eks_cluster"
                 (object [("clusterName", JsString "alpha")])
                 (listClusterDeployments healthy "alpha" None None started).2).2 =
  kubeconfigs (listClusterDeployments healthy "alpha" None None started).2.
Proof.
  apply (sessions_never_reused healthy "delete_eks_cluster"
           (object [("clusterName", JsString "alpha")])
           (listClusterDeployments healthy "alpha" None None started).2).
  discriminate.
Defined.

(** ** Projections of pods and services *)

Section Projections.
Context {W : Type} (E : External W).

Lemma renderAge_negative (diff : Z) :
  diff < 0 →
  renderAge diff = pretty ((diff `rem` 3600000) `div` 60000) +:+ "m" ∧
  -60 ≤ (diff `rem` 3600000) `div` 60000 ≤ 0.
Proof.
  intros Hdiff. unfold renderAge, numberToString, msPerDay, msPerHour, msPerMinute.
  change (1000 * 60 * 60 * 24) with 86400000.
  change (1000 * 60 * 60) with 3600000.
  change (1000 * 60) with 60000.
  pose proof (Z.rem_bound_pos_neg diff 86400000 ltac:(lia) ltac:(lia)) as Hday.
  pose proof (Z.rem_bound_pos_neg diff 3600000 ltac:(lia) ltac:(lia)) as Hhour.
  assert (diff `div` 86400000 < 0) by (apply Z.div_lt_upper_bound; lia).
  assert ((diff `rem` 86400000) `div` 3600000 ≤ 0)
    by (apply Z.lt_succ_r, Z.div_lt_upper_bound; lia).
  assert ((diff `rem` 3600000) `div` 60000 ≤ 0)
    by (apply Z.lt_succ_r, Z.div_lt_upper_bound; lia).
  assert (-60 ≤ (diff `rem` 3600000) `div` 60000)
    by (apply Z.div_le_lower_bound; lia).
  rewrite !bool_decide_eq_false_2 by lia. done.
Qed.

(** X13: an object whose creation timestamp lies in the future never
    renders days or hours: its age is a number of minutes between -60 and 0
    followed by "m", computed from the part of the difference below one
    hour only. *)
Theorem calculateAge_future
    (timestamp : string) (created current : Z) (w' : W) (s : Sys W) :
  timestamp ≠ "" →
  Date_parse E timestamp = Some created →
  clock E (world s) = (current, w') →
  current < created →
  let minutes := ((current - created) `rem` 3600000) `div` 60000 in
  (calculateAge E (Some timestamp) s).1 = Ok (pretty minutes +:+ "m") ∧
  -60 ≤ minutes ≤ 0.
Proof.
  intros Hne Hparse Hclock Hlt minutes.
  destruct (renderAge_negative (current - created)) as [Hrender Hbound]; [lia|].
  split; [|exact Hbound].
  unfold calculateAge. case_decide; [done|].
  unfold bind, now, external. rewrite Hclock, Hparse. simpl. by rewrite Hrender.
Qed.

Lemma filter_all_length {A} (f : A → bool) (l : list A) :
  length (List.filter f l) = length l ↔ Forall (fun x => f x = true) l.
Proof.
  split.
  - intros Hlen. apply Forall_forall. intros x Hx.
    apply filter_length_forallb in Hlen. rewrite forallb_forall in Hlen.
    apply Hlen. by apply list_elem_of_In.
  - induction 1 as [|x l Hx _ IH]; simpl; [done|]. rewrite Hx. simpl. by rewrite IH.
Qed.

(** X14: the readiness of a pod is "0/0" when it reports no container
    statuses (none at all, or an empty list); otherwise it is "ready/total"
    where total is the number of statuses and ready is the number of them
    whose ready flag is set, which lies between 0 and total and equals total
    exactly when all are ready. *)
Theorem getPodReadyStatus_counts (pod : V1Pod) :
  match pod_status pod ≫= ps_containerStatuses with
  | None | Some [] => getPodReadyStatus pod = "0/0"
  | Some statuses =>
      let ready := length (List.filter cs_ready statuses) in
      getPodReadyStatus pod =
        pretty (Z.of_nat ready) +:+ "/" +:+ pretty (Z.of_nat (length statuses)) ∧
      (ready ≤ length statuses)%nat ∧
      (ready = length statuses ↔ Forall (fun status => cs_ready status = true) statuses)
  end.
Proof.
  unfold getPodReadyStatus.
  destruct (pod_status pod ≫= ps_containerStatuses) as [[|status rest]|]; [done| |done].
  split; [done|]. split; [apply filter_length_le|apply filter_all_length].
Qed.

Lemma fold_left_restarts (statuses : list V1ContainerStatus) (acc : Z) :
  fold_left (fun total status => total + cs_restartCount status) statuses acc =
    acc + sumZ (cs_restartCount <$> statuses).
Proof.
  revert acc. induction statuses as [|status rest IH]; intros acc.
  - unfold sumZ. simpl. lia.
  - rewrite fmap_cons. cbn [fold_left]. rewrite IH. unfold sumZ. cbn [foldr]. lia.
Qed.

Lemma sumZ_perm (xs ys : list Z) : xs ≡ₚ ys → sumZ xs = sumZ ys.
Proof. induction 1; unfold sumZ in *; simpl; lia. Qed.

(** X15: the restart count of a pod is the sum of the restart counters of
    its container statuses, 0 when it reports none; it does not depend on
    the order of the statuses and is not negative when no counter is. *)
Theorem getPodRestartCount_sum (pod : V1Pod) :
  getPodRestartCount pod =
    sumZ (cs_restartCount <$> default [] (pod_status pod ≫= ps_containerStatuses)) ∧
  (∀ pod',
     default [] (pod_status pod ≫= ps_containerStatuses) ≡ₚ
     default [] (pod_status pod' ≫= ps_containerStatuses) →
     getPodRestartCount pod' = getPodRestartCount pod) ∧
  (Forall (fun status => 0 ≤ cs_restartCount status)
     (default [] (pod_status pod ≫= ps_containerStatuses)) →
   0 ≤ getPodRestartCount pod).
Proof.
  assert (∀ p, getPodRestartCount p =
               sumZ (cs_restartCount <$>
                       default [] (pod_status p ≫= ps_containerStatuses))) as Hsum.
  { intros p. unfold getPodRestartCount.
    destruct (pod_status p ≫= ps_containerStatuses) as [statuses|]; [|done].
    rewrite fold_left_restarts. simpl. lia. }
  split; [apply Hsum|]. split.
  - intros pod' Hperm. rewrite !Hsum. apply sumZ_perm. by rewrite Hperm.
  - rewrite Hsum. induction 1 as [|status rest Hhead _ IH]; [done|].
    rewrite fmap_cons. unfold sumZ in *. cbn [foldr]. lia.
Qed.

(** X16: a service without ports, or with an empty port list, renders
    "<none>".  A single port renders as "port/protocol", or as
    "port:nodePort/protocol" when a node port other than 0 is assigned; an
    absent or empty protocol renders as TCP. *)
Theorem getServicePorts_rendering (service : V1Service) (port : V1ServicePort) :
  (svc_spec service ≫= ss_ports = None ∨ svc_spec service ≫= ss_ports = Some [] →
   getServicePorts service = "<none>") ∧
  (svc_spec service ≫= ss_ports = Some [port] →
   getServicePorts service =
     match sp_nodePort port with
     | Some (Z.pos _ as nodePort) | Some (Z.neg _ as nodePort) =>
         pretty (sp_port port) +:+ ":" +:+ pretty nodePort +:+ "/"
         +:+ orString (sp_protocol port) "TCP"
     | Some 0 | None =>
         pretty (sp_port port) +:+ "/" +:+ orString (sp_protocol port) "TCP"
     end) ∧
  orString None "TCP" = "TCP" ∧ orString (Some "") "TCP" = "TCP".
Proof.
  unfold getServicePorts. split; [|split; [|done]].
  - by intros [-> | ->].
  - intros ->. simpl. unfold renderPort.
    by destruct (sp_nodePort port) as [[|n|n]|].
Qed.

End Projections.

(** An object created five minutes after the clock reads renders "-5m"; one
    created exactly two hours after it renders "0m". *)
Lemma calculateAge_future_witness :
  (calculateAge healthy (Some "1700000900000") started).1 = Ok "-5m" ∧
  -60 ≤ -5 ≤ 0.
Proof.
  apply (calculateAge_future healthy "1700000900000" 1700000900000 1700000600000
           1700000600001 started).
  - discriminate.
  - vm_compute. reflexivity.
  - reflexivity.
  - lia.
Defined.

Example age_two_hours_ahead : renderAge (- (2 * msPerHour)) = "0m".
Proof. vm_compute. reflexivity. Qed.

Example ready_two_of_three :
  getPodReadyStatus
    {| pod_metadata := None;
       pod_status :=
         Some {| ps_phase := None;
                 ps_containerStatuses :=
                   Some [ {| cs_ready := true; cs_restartCount := 1 |};
                          {| cs_ready := false; cs_restartCount := 4 |};
                          {| cs_ready := true; cs_restartCount := 0 |} ] |};
       pod_nodeName := None |} = "2/3".
Proof. vm_compute. reflexivity. Qed.

Lemma getPodRestartCount_sum_witness :
  0 ≤ getPodRestartCount
        {| pod_metadata := None;
           pod_status :=
             Some {| ps_phase := None;
                     ps_containerStatuses :=
                       Some [ {| cs_ready := true; cs_restartCount := 1 |};
                              {| cs_ready := false; cs_restartCount := 4 |} ] |};
           pod_nodeName := None |}.
Proof.
  apply getPodRestartCount_sum. simpl.
  apply List.Forall_cons; [simpl; lia|].
  apply List.Forall_cons; [simpl; lia|]. apply List.Forall_nil.
Defined.

Lemma getServicePorts_rendering_witness :
  getServicePorts
    {| svc_metadata := None;
       svc_spec := Some {| ss_type := None; ss_clusterIP := None; ss_externalIPs := None;
                           ss_ports := Some [ {| sp_port := 443; sp_nodePort := Some 0;
                                                 sp_protocol := Some "" |} ] |};
       svc_ingress := None |} = "443/TCP".
Proof.
  apply (getServicePorts_rendering
           {| svc_metadata := None;
              svc_spec := Some {| ss_type := None; ss_clusterIP := None;
                                  ss_externalIPs := None;
                                  ss_ports := Some [ {| sp_port := 443; sp_nodePort := Some 0;
                                                        sp_protocol := Some "" |} ] |};
              svc_ingress := None |}
           {| sp_port := 443; sp_nodePort := Some 0; sp_protocol := Some "" |}).
  reflexivity.
Defined.

(** ** What an inspection returns *)

Section Inspection.
Context {W : Type} (E : External W).

Lemma calculateAge_returns (timestamp : option string) (s : Sys W) :
  ∃ age s', calculateAge E timestamp s = (Ok age, s').
Proof.
  unfold calculateAge. destruct timestamp as [ts|]; [|by eexists _, _].
  case_decide; [by eexists _, _|].
  unfold bind, now, external. destruct (clock E (world s)) as [t w']. simpl.
  destruct (Date_parse E ts); by eexists _, _.
Qed.

Lemma podInfo_returns (pod : V1Pod) (s : Sys W) :
  ∃ info s',
    podInfo E pod s = (Ok info, s') ∧
    pi_namespace info = orString (pod_metadata pod ≫= om_namespace) "default".
Proof.
  unfold podInfo, bind.
  destruct (calculateAge_returns (creationTimestampString E (pod_metadata pod)) s)
    as (age & s' & ->).
  by eexists _, _.
Qed.

Lemma serviceInfo_run (service : V1Service) (s : Sys W) :
  match svc_ingress service with
  | Some [] => serviceInfo E service s = (Throw (TypeError_undefined "ip"), s)
  | _ =>
      ∃ info s',
        serviceInfo E service s = (Ok info, s') ∧
        si_namespace info = orString (svc_metadata service ≫= om_namespace) "default"
  end.
Proof.
  unfold serviceInfo, bind, liftResult, getExternalIP.
  destruct (calculateAge_returns (creationTimestampString E (svc_metadata service)) s)
    as (age & s' & Hage).
  destruct (svc_ingress service) as [[|ingress rest]|]; [done| |].
  - rewrite Hage. by eexists _, _.
  - destruct (svc_spec service ≫= ss_externalIPs) as [ips|];
      [case_bool_decide|]; rewrite Hage; by eexists _, _.
Qed.

Lemma mapM_podInfo_returns (items : list V1Pod) (s : Sys W) :
  ∃ infos s',
    mapM (podInfo E) items s = (Ok infos, s') ∧
    pi_namespace <$> infos =
      (fun pod => orString (pod_metadata pod ≫= om_namespace) "default") <$> items.
Proof.
  revert s. induction items as [|pod rest IH]; intros s; simpl.
  - by eexists _, _.
  - unfold bind at 1. destruct (podInfo_returns pod s) as (info & s1 & -> & Hns).
    unfold bind. destruct (IH s1) as (infos & s2 & -> & Hrest). simpl.
    eexists _, _. split; [done|]. rewrite !fmap_cons. by rewrite Hns, Hrest.
Qed.

Lemma mapM_serviceInfo_run (items : list V1Service) (s : Sys W) :
  (Exists (fun service => svc_ingress service = Some []) items ∧
   (mapM (serviceInfo E) items s).1 = Throw (TypeError_undefined "ip")) ∨
  (Forall (fun service => svc_ingress service ≠ Some []) items ∧
   ∃ infos s',
     mapM (serviceInfo E) items s = (Ok infos, s') ∧
     si_namespace <$> infos =
       (fun service => orString (svc_metadata service ≫= om_namespace) "default")
         <$> items).
Proof.
  revert s. induction items as [|service rest IH]; intros s; simpl.
  - right. split; [constructor|]. by eexists _, _.
  - pose proof (serviceInfo_run service s) as Hrun. unfold bind at 1.
    destruct (svc_ingress service) as [[|ingress others]|] eqn:Hingress.
    + left. split; [by apply Exists_cons_hd|]. unfold bind. by rewrite Hrun.
    + destruct Hrun as (info & s1 & Hinfo & Hns). unfold bind. rewrite Hinfo.
      destruct (IH s1) as [[Hbad Hthrow]|(Hgood & infos & s2 & Hmap & Hrest)].
      * left. split; [by apply Exists_cons_tl|].
        destruct (mapM (serviceInfo E) rest s1) as [[x|e] s2]; simpl in *; congruence.
      * right. split; [apply Forall_cons; split; [congruence|done]|].
        eexists _, _. rewrite Hmap. simpl. split; [done|].
        rewrite !fmap_cons. by rewrite Hns, Hrest.
    + destruct Hrun as (info & s1 & Hinfo & Hns). unfold bind. rewrite Hinfo.
      destruct (IH s1) as [[Hbad Hthrow]|(Hgood & infos & s2 & Hmap & Hrest)].
      * left. split; [by apply Exists_cons_tl|].
        destruct (mapM (serviceInfo E) rest s1) as [[x|e] s2]; simpl in *; congruence.
      * right. split; [apply Forall_cons; split; [congruence|done]|].
        eexists _, _. rewrite Hmap. simpl. split; [done|].
        rewrite !fmap_cons. by rewrite Hns, Hrest.
Qed.

Lemma filtered_namespace {A} (metadata : A → option V1ObjectMeta) (ns : string)
    (items : list A) :
  ns ≠ "" →
  (fun item => orString (metadata item ≫= om_namespace) "default")
    <$> filterByNamespace metadata (Some ns) items =
  (fun _ => ns) <$> filterByNamespace metadata (Some ns) items.
Proof.
  intros Hne. simpl. induction items as [|item rest IH]; simpl; [done|].
  case_bool_decide as Hns; [|exact IH].
  rewrite !fmap_cons, IH, Hns. simpl. by case_decide.
Qed.

Lemma fetched_run
    (name : string) (region namespace : option string)
    (podItems : list V1Pod) (serviceItems : list V1Service) (s s1 : Sys W) :
  fetchClusterObjects E name region s = (Ok (podItems, serviceItems), s1) →
  listClusterDeployments E name region namespace s =
    projectObjects E
      (filterByNamespace pod_metadata (targetNamespace namespace) podItems)
      (filterByNamespace svc_metadata (targetNamespace namespace) serviceItems) s1.
Proof.
  intros Hfetch. unfold listClusterDeployments, projectObjects, try_catch.
  unfold bind at 1. by rewrite Hfetch.
Qed.

Lemma listClusterDeployments_inv
    (name : string) (region namespace : option string) (d : DeploymentsInfo) (s s' : Sys W) :
  listClusterDeployments E name region namespace s = (Ok d, s') →
  ∃ podItems serviceItems s1,
    fetchClusterObjects E name region s = (Ok (podItems, serviceItems), s1).
Proof.
  unfold listClusterDeployments, try_catch. unfold bind at 1.
  destruct (fetchClusterObjects E name region s) as [[[podItems serviceItems]|e] s1];
    [by eauto|discriminate].
Qed.

(** X17: when an inspection is asked for a namespace (neither empty nor
    "all") and succeeds, every pod and every service it returns carries that
    namespace, and it returns one entry per fetched object of that
    namespace. *)
Theorem inspection_entries_in_namespace
    (name : string) (region : option string) (ns : string) (d : DeploymentsInfo)
    (s s' : Sys W) :
  ns ≠ "" → ns ≠ "all" →
  listClusterDeployments E name region (Some ns) s = (Ok d, s') →
  Forall (fun pod => pi_namespace pod = ns) (pods d) ∧
  Forall (fun service => si_namespace service = ns) (services d) ∧
  ∃ podItems serviceItems s1,
    fetchClusterObjects E name region s = (Ok (podItems, serviceItems), s1) ∧
    length (pods d) =
      length (List.filter
                (fun pod => bool_decide (pod_metadata pod ≫= om_namespace = Some ns))
                podItems) ∧
    length (services d) =
      length (List.filter
                (fun service =>
                   bool_decide (svc_metadata service ≫= om_namespace = Some ns))
                serviceItems).
Proof.
  intros Hempty Hall Hrun.
  destruct (listClusterDeployments_inv _ _ _ _ _ _ Hrun) as (podItems & serviceItems & s1 & Hfetch).
  rewrite (fetched_run _ _ _ _ _ _ _ Hfetch) in Hrun.
  assert (targetNamespace (Some ns) = Some ns) as Htarget.
  { unfold targetNamespace, truthyString.
    rewrite (bool_decide_eq_false_2 (Some ns = Some "all")) by congruence.
    by rewrite (bool_decide_eq_true_2 (ns ≠ "")). }
  rewrite Htarget in Hrun. unfold projectObjects, try_catch in Hrun.
  unfold bind at 1 in Hrun.
  destruct (mapM_podInfo_returns (filterByNamespace pod_metadata (Some ns) podItems) s1)
    as (podInfos & s2 & Hpods & Hpodns).
  rewrite Hpods in Hrun. unfold bind at 1 in Hrun.
  destruct (mapM_serviceInfo_run (filterByNamespace svc_metadata (Some ns) serviceItems) s2)
    as [[_ Hthrow]|(_ & serviceInfos & s3 & Hservices & Hservicens)].
  { destruct (mapM (serviceInfo E) _ s2) as [[x|e] s3]; simpl in *; discriminate. }
  rewrite Hservices in Hrun. simpl in Hrun. injection Hrun as <- <-. simpl.
  rewrite filtered_namespace in Hpodns by done.
  rewrite filtered_namespace in Hservicens by done.
  assert (∀ (A B : Type) (get : A → string) (xs : list A) (ys : list B),
            get <$> xs = (fun _ => ns) <$> ys →
            Forall (fun x => get x = ns) xs ∧ length xs = length ys) as Hconst.
  { intros A B get xs. induction xs as [|x xs IH]; intros [|y ys] Heq;
      try discriminate; [by split|].
    rewrite !fmap_cons in Heq. injection Heq as Hx Hxs.
    destruct (IH ys Hxs) as [Hall' Hlen]. split; [by constructor|]. simpl. by rewrite Hlen. }
  destruct (Hconst _ _ _ _ _ Hpodns) as [Hp Hplen].
  destruct (Hconst _ _ _ _ _ Hservicens) as [Hs Hslen].
  split; [done|]. split; [done|]. by eexists _, _, _.
Qed.

(** X18: one service with an empty ingress list among the services to
    project makes the whole inspection fail with the wrapped TypeError; no
    pod or service is returned. *)
Theorem inspection_fails_on_empty_ingress
    (name : string) (region namespace : option string)
    (podItems : list V1Pod) (serviceItems : list V1Service) (s s1 : Sys W) :
  fetchClusterObjects E name region s = (Ok (podItems, serviceItems), s1) →
  Exists (fun service => svc_ingress service = Some [])
    (filterByNamespace svc_metadata (targetNamespace namespace) serviceItems) →
  (listClusterDeployments E name region namespace s).1 =
    Throw (JsError ("Failed to list cluster deployments: "
                    +:+ "Cannot read properties of undefined (reading 'ip')")).
Proof.
  intros Hfetch Hbad. rewrite (fetched_run _ _ _ _ _ _ _ Hfetch).
  unfold projectObjects, try_catch. unfold bind at 1.
  destruct (mapM_podInfo_returns
              (filterByNamespace pod_metadata (targetNamespace namespace) podItems) s1)
    as (podInfos & s2 & -> & _).
  unfold bind at 1.
  destruct (mapM_serviceInfo_run
              (filterByNamespace svc_metadata (targetNamespace namespace) serviceItems) s2)
    as [[_ Hthrow]|(Hgood & _)].
  - destruct (mapM (serviceInfo E) _ s2) as [[x|e] s3]; simpl in *; [discriminate|].
    by injection Hthrow as ->.
  - apply Exists_exists in Hbad as (service & Hin & Hingress).
    rewrite Forall_forall in Hgood. by destruct (Hgood service Hin).
Qed.

(** X19: a pod without a namespace in its metadata (metadata absent,
    namespace absent or empty) is listed under the default namespace when
    nothing is filtered, but a request for any namespace, "default" included,
    leaves it out. *)
Theorem pod_without_namespace (pod : V1Pod) (items : list V1Pod) (s : Sys W) :
  orString (pod_metadata pod ≫= om_namespace) "" = "" →
  (∃ info s', podInfo E pod s = (Ok info, s') ∧ pi_namespace info = "default") ∧
  (∀ ns, ns ≠ "" → ns ≠ "all" →
     pod ∉ filterByNamespace pod_metadata (targetNamespace (Some ns)) items).
Proof.
  intros Hnone. split.
  - destruct (podInfo_returns pod s) as (info & s' & Hrun & Hns).
    exists info, s'. split; [done|]. rewrite Hns.
    unfold orString in *. destruct (pod_metadata pod ≫= om_namespace) as [n|]; [|done].
    case_decide; [done|]. by subst.
  - intros ns Hempty Hall.
    assert (targetNamespace (Some ns) = Some ns) as ->.
    { unfold targetNamespace, truthyString.
      rewrite (bool_decide_eq_false_2 (Some ns = Some "all")) by congruence.
      by rewrite (bool_decide_eq_true_2 (ns ≠ "")). }
    simpl. rewrite list_elem_of_In, filter_In, bool_decide_eq_true.
    intros [_ Hns]. rewrite Hns in Hnone. simpl in Hnone. by case_decide.
Qed.

End Inspection.

(** The sample inspection of the namespace [default]. *)
Lemma sample_default_inspection :
  listClusterDeployments healthy "alpha" None (Some "default") started =
    (Ok {| pods := [ {| pi_name := "web-1"; pi_namespace := "default";
                        pi_status := "Running"; pi_ready := "1/2"; pi_restarts := 2;
                        pi_age := "10m"; pi_node := "node-a" |} ];
           services := [ {| si_name := "web"; si_namespace := "default";
                            si_type := "LoadBalancer"; si_clusterIP := "10.0.0.7";
                            si_externalIP := "lb.example.com"; si_ports := "80:30080/TCP";
                            si_age := "10m" |} ] |},
     (listClusterDeployments healthy "alpha" None (Some "default") started).2).
Proof. vm_compute. reflexivity. Defined.

Lemma inspection_entries_in_namespace_witness :
  Forall (fun pod => pi_namespace pod = "default")
    [ {| pi_name := "web-1"; pi_namespace := "default";
         pi_status := "Running"; pi_ready := "1/2"; pi_restarts := 2;
         pi_age := "10m"; pi_node := "node-a" |} ].
Proof.
  refine (proj1 (inspection_entries_in_namespace healthy "alpha" None "default" _ started _
                   _ _ sample_default_inspection)); discriminate.
Defined.

(** What is fetched from the cluster with the empty ingress list. *)
Lemma broken_fetch :
  fetchClusterObjects brokenIngress "alpha" None started =
    (Ok (samplePods, sampleServices ++ [emptyIngressService]),
     (fetchClusterObjects brokenIngress "alpha" None started).2).
Proof. vm_compute. reflexivity. Defined.

Lemma inspection_fails_on_empty_ingress_witness :
  (listClusterDeployments brokenIngress "alpha" None None started).1 =
    Throw (JsError "Failed to list cluster deployments: Cannot read properties of undefined (reading 'ip')").
Proof.
  apply (inspection_fails_on_empty_ingress brokenIngress "alpha" None None _ _ _ _
           broken_fetch).
  simpl. do 2 apply Exists_cons_tl. by apply Exists_cons_hd.
Defined.

Lemma pod_without_namespace_witness :
  {| pod_metadata := None; pod_status := None; pod_nodeName := None |}
    ∉ filterByNamespace pod_metadata (targetNamespace (Some "default"))
        ({| pod_metadata := None; pod_status := None; pod_nodeName := None |} :: samplePods).
Proof.
  apply (pod_without_namespace healthy
           {| pod_metadata := None; pod_status := None; pod_nodeName := None |}
           ({| pod_metadata := None; pod_status := None; pod_nodeName := None |}
              :: samplePods) started); [reflexivity|discriminate|discriminate].
Defined.

(** The first ingress has no IP: its hostname is projected. *)
Lemma getExternalIP_otherwise_witness :
  getExternalIP
    {| svc_metadata := None; svc_spec := None;
       svc_ingress := Some [ {| lb_ip := Some ""; lb_hostname := Some "lb.example.com" |} ] |}
  = Ok "lb.example.com".
Proof.
  apply (getExternalIP_otherwise
           {| svc_metadata := None; svc_spec := None;
              svc_ingress :=
                Some [ {| lb_ip := Some ""; lb_hostname := Some "lb.example.com" |} ] |}).
  discriminate.
Defined.

(** ** Filtering twice *)

(** X21: filtering by namespace keeps a sublist of the objects, in their
    order, and filtering an already filtered list by the same namespace
    changes nothing. *)
Theorem filterByNamespace_idempotent {A} (metadata : A → option V1ObjectMeta)
    (target : option string) (items : list A) :
  filterByNamespace metadata target (filterByNamespace metadata target items) =
    filterByNamespace metadata target items ∧
  filterByNamespace metadata target items `sublist_of` items.
Proof.
  destruct target as [ns|]; simpl; [|done].
  induction items as [|item rest [IHeq IHsub]]; simpl; [done|].
  case_bool_decide as Hns; simpl.
  - rewrite bool_decide_eq_true_2 by done. split; [by f_equal|by apply sublist_skip].
  - split; [done|by apply sublist_cons].
Qed.

Lemma callTool_protocol_outcome_witness : isError (textResult "{}") = None.
Proof.
  apply (proj2 (callTool_protocol_outcome healthy "list_eks_clusters" JsUndefined started)).
  vm_compute. reflexivity.
Defined.
